(** * scripts/transcribe-local.py: the local Whisper transcription driver

    A shallow embedding of the script and of the parts of the Python
    runtime it relies on:

    - Python [str] values are byte strings holding UTF-8 text (Rocq
      [string]); [float] is IEEE-754 binary64 (Rocq's primitive floats);
      [int] is [Z].
    - [print], [sys.exit], [raise] and [try ... except Exception] are a
      small state-and-exception monad over the two output streams.  A
      stream records the text handed to it; [print] on standard output
      raises [UnicodeEncodeError], writing nothing, when the stream's
      encoding cannot take the text, and the diagnostic stream (error
      handler [backslashreplace]) takes any text.
    - The faster-whisper library is an oracle: a record of functions giving
      the outcome of [WhisperModel(...)] and of [model.transcribe(...)],
      the latter returning a lazy, single-pass generator of segments that
      may itself raise while it is being consumed.  Every call the driver
      makes on the library is logged with its arguments.
    - [json.dumps(obj, ensure_ascii=False, indent=n)] follows CPython's
      [json.encoder] ([py_encode_basestring], [_make_iterencode]); the
      decimal form of a finite float ([float.__repr__]) is a parameter.

    Scope of the model: a segment sequence is finite (the audio is); the
    exceptions of the library are instances of [Exception], the class the
    script's handler names; the encoding of standard output is a parameter
    of [main], and [run] is the script under the UTF-8 encoding. *)

From Stdlib Require Import ZArith String Ascii List Bool Floats Lia.
From Stdlib Require Import DecimalString.
From Stdlib Require DecimalPos DecimalZ.
Import ListNotations.

Local Open Scope string_scope.
Local Open Scope list_scope.

(** ** Strings *)

(** The line terminator written by [print]. *)
Definition newline : string := String (ascii_of_nat 10) EmptyString.

(** The double-quote character that delimits JSON strings. *)
Definition dquote : ascii := ascii_of_nat 34.

(** [sep.join(parts)]. *)
Fixpoint join (sep : string) (parts : list string) : string :=
  match parts with
  | [] => EmptyString
  | [x] => x
  | x :: rest => (x ++ sep ++ join sep rest)%string
  end.

(** [c * n] for a one-character string [c]. *)
Fixpoint repeat_char (c : ascii) (n : nat) : string :=
  match n with
  | O => EmptyString
  | S k => String c (repeat_char c k)
  end.

(** ** Python objects that reach [json.dumps] *)

#[warnings="-register-all"]
Inductive pyobj : Type :=
| PyInt (z : Z)
| PyFloat (f : float)
| PyStr (s : string)
| PyList (items : list pyobj)
| PyDict (items : list (string * pyobj)).

(** [d[key]] on a dict literal (insertion order, first binding). *)
Fixpoint dict_get (key : string) (items : list (string * pyobj)) : option pyobj :=
  match items with
  | [] => None
  | (k, v) :: rest => if String.eqb k key then Some v else dict_get key rest
  end.

Definition getitem (key : string) (o : pyobj) : option pyobj :=
  match o with
  | PyDict items => dict_get key items
  | _ => None
  end.

Definition keys (o : pyobj) : list string :=
  match o with
  | PyDict items => map fst items
  | _ => []
  end.

(** ** The faster-whisper interface used by the script *)

Module Segment.
Record t : Type := mk { id : Z; start : float; end_ : float; text : string }.
End Segment.

Module Info.
Record t : Type := mk { language : string; duration : float }.
End Info.

(** An instance of [Exception], as raised by the library or by an index out
    of range; [str e] is its textual message. *)
Inductive Exception : Type := mkException (message : string).

Definition str (e : Exception) : string :=
  match e with mkException message => message end.

Inductive result (A : Type) : Type :=
| Ok (a : A)
| Raised (e : Exception).
Arguments Ok {A} a.
Arguments Raised {A} e.

(** The lazy segment sequence: each step yields a segment, stops, or raises
    (decoding happens while the sequence is consumed). *)
Inductive generator : Type :=
| StopIteration
| Yield (segment : Segment.t) (rest : generator)
| GenRaise (e : Exception).

Record library : Type := mkLibrary {
  model : Type;
  WhisperModel : string -> string -> string -> result model;
  transcribe : model -> string -> string -> Z -> bool ->
               result (generator * Info.t)
}.

(** What a complete pass over a generator produces. *)
Fixpoint consume (g : generator) : result (list Segment.t) :=
  match g with
  | StopIteration => Ok []
  | Yield s rest =>
      match consume rest with
      | Ok l => Ok (s :: l)
      | Raised e => Raised e
      end
  | GenRaise e => Raised e
  end.

Fixpoint generator_of (l : list Segment.t) : generator :=
  match l with
  | [] => StopIteration
  | s :: rest => Yield s (generator_of rest)
  end.

(** ** Process state and the effect monad *)

Inductive call : Type :=
| Call_WhisperModel (model_size device compute_type : string)
| Call_transcribe (audio_path language : string) (beam_size : Z)
                  (word_timestamps : bool).

Record world : Type := mkWorld {
  stdout : string;
  stderr : string;
  calls : list call
}.

Definition initial_world : world := mkWorld EmptyString EmptyString [].

Inductive outcome (A : Type) : Type :=
| Return (a : A)
| Raise (e : Exception)
| SystemExit (code : Z).
Arguments Return {A} a.
Arguments Raise {A} e.
Arguments SystemExit {A} code.

Definition py (A : Type) : Type := world -> outcome A * world.

Definition ret {A} (a : A) : py A := fun w => (Return a, w).

Definition bind {A B} (c : py A) (k : A -> py B) : py B :=
  fun w =>
    match c w with
    | (Return a, w') => k a w'
    | (Raise e, w') => (Raise e, w')
    | (SystemExit code, w') => (SystemExit code, w')
    end.

Declare Scope py_scope.
Delimit Scope py_scope with py.
Notation "x <- c ;; k" := (bind c (fun x => k))
  (at level 61, c at next level, right associativity) : py_scope.
Notation "' p <- c ;; k" := (bind c (fun x => let 'p := x in k))
  (at level 61, p pattern, c at next level, right associativity) : py_scope.
Notation "c ;; k" := (bind c (fun _ => k))
  (at level 61, right associativity) : py_scope.
Local Open Scope py_scope.

Definition raise {A} (e : Exception) : py A := fun w => (Raise e, w).

(** [sys.exit(code)] raises [SystemExit], which is not an [Exception]. *)
Definition sys_exit {A} (code : Z) : py A := fun w => (SystemExit code, w).

(** The encoding of a text stream: which texts it can take, and the
    [UnicodeEncodeError] it raises on a text it cannot. *)
Record encoding : Type := mkEncoding {
  accepts : string -> bool;
  encode_error : string -> Exception
}.

(** UTF-8 takes every text. *)
Definition utf_8 : encoding :=
  mkEncoding (fun _ => true)
             (fun _ => mkException "'utf-8' codec can't encode characters").

(** [print(s)] on a standard output with the given encoding: the text is
    encoded as a whole before anything is written, so a text the encoding
    cannot take raises and leaves the stream as it was. *)
Definition print (stdout_encoding : encoding) (s : string) : py unit :=
  fun w =>
    if accepts stdout_encoding s then
      (Return tt,
       mkWorld (stdout w ++ s ++ newline)%string (stderr w) (calls w))
    else (Raise (encode_error stdout_encoding s), w).

(** [print(s, file=sys.stderr)]; the diagnostic stream replaces what its
    encoding cannot take and never raises. *)
Definition print_stderr (s : string) : py unit :=
  fun w => (Return tt,
            mkWorld (stdout w) (stderr w ++ s ++ newline)%string (calls w)).

(** [try: body  except Exception as e: handler(e)]. *)
Definition try_except {A} (body : py A) (handler : Exception -> py A) : py A :=
  fun w =>
    match body w with
    | (Raise e, w') => handler e w'
    | r => r
    end.

Definition log_call (c : call) : py unit :=
  fun w => (Return tt, mkWorld (stdout w) (stderr w) (calls w ++ [c])).

Definition lift_result {A} (r : result A) : py A :=
  match r with
  | Ok a => ret a
  | Raised e => raise e
  end.

(** [lst[i]]: raises [IndexError] out of range. *)
Definition index (lst : list string) (i : nat) : py string :=
  match nth_error lst i with
  | Some x => ret x
  | None => raise (mkException "list index out of range")
  end.

(** ** [json.dumps(obj, ensure_ascii=False, indent=n)] *)

Definition hex_digit (n : nat) : ascii :=
  ascii_of_nat (if Nat.ltb n 10 then 48 + n else 87 + n).

(** [ESCAPE_DCT] of [json.encoder]: the replacement of one character matched
    by the [ESCAPE] pattern (the bytes 0x00 to 0x1f, the backslash and the
    double quote), and the character itself when it is not matched. *)
Definition escape_char (c : ascii) : string :=
  let n := nat_of_ascii c in
  if Nat.eqb n 92 then "\\"
  else if Nat.eqb n 34 then String "\"%char (String dquote EmptyString)
  else if Nat.eqb n 8 then "\b"
  else if Nat.eqb n 12 then "\f"
  else if Nat.eqb n 10 then "\n"
  else if Nat.eqb n 13 then "\r"
  else if Nat.eqb n 9 then "\t"
  else if Nat.ltb n 32 then
    ("\u00" ++ String (hex_digit (n / 16)) (String (hex_digit (n mod 16)) EmptyString))%string
  else String c EmptyString.

Fixpoint escape (s : string) : string :=
  match s with
  | EmptyString => EmptyString
  | String c rest => (escape_char c ++ escape rest)%string
  end.

(** [py_encode_basestring]: the string encoder selected by
    [ensure_ascii=False]. *)
Definition encode_basestring (s : string) : string :=
  String dquote (escape s ++ String dquote EmptyString).

(** [int.__repr__]. *)
Definition int_repr (z : Z) : string := NilZero.string_of_int (Z.to_int z).

Section Json.

(** [float.__repr__] on finite floats (shortest round-trip decimal). *)
Variable float_repr : float -> string.

(** [floatstr] of [json.encoder], with the default [allow_nan=True]. *)
Definition floatstr (o : float) : string :=
  if negb (PrimFloat.eqb o o) then "NaN"
  else if PrimFloat.eqb o infinity then "Infinity"
  else if PrimFloat.eqb o neg_infinity then "-Infinity"
  else float_repr o.

(** ['\n' + _indent * _current_indent_level] with [_indent = ' ' * indent]. *)
Definition newline_indent (indent level : nat) : string :=
  (newline ++ repeat_char " " (indent * level))%string.

(** [_iterencode] with its chunks concatenated; the item separator is [','],
    the key separator [': ']. *)
Fixpoint iterencode (indent : nat) (o : pyobj) (level : nat) : string :=
  match o with
  | PyStr s => encode_basestring s
  | PyInt z => int_repr z
  | PyFloat f => floatstr f
  | PyList [] => "[]"
  | PyList lst =>
      ("[" ++ newline_indent indent (S level)
       ++ join ("," ++ newline_indent indent (S level))
               (map (fun value => iterencode indent value (S level)) lst)
       ++ newline_indent indent level ++ "]")%string
  | PyDict [] => "{}"
  | PyDict dct =>
      ("{" ++ newline_indent indent (S level)
       ++ join ("," ++ newline_indent indent (S level))
               (map (fun kv => let '(key, value) := kv in
                               encode_basestring key ++ ": "
                               ++ iterencode indent value (S level)) dct)
       ++ newline_indent indent level ++ "}")%string
  end.

Definition json_dumps (obj : pyobj) (indent : nat) : string :=
  iterencode indent obj 0.

End Json.

(** ** The script *)

Section Driver.

Variable stdout_encoding : encoding.
Variable float_repr : float -> string.
Variable lib : library.

(** [WhisperModel(model_size, device=..., compute_type=...)]. *)
Definition new_WhisperModel (model_size device compute_type : string)
  : py (model lib) :=
  log_call (Call_WhisperModel model_size device compute_type) ;;
  lift_result (WhisperModel lib model_size device compute_type).

(** [model.transcribe(audio_path, language=..., beam_size=...,
    word_timestamps=...)]. *)
Definition model_transcribe (m : model lib) (audio_path language : string)
    (beam_size : Z) (word_timestamps : bool) : py (generator * Info.t) :=
  log_call (Call_transcribe audio_path language beam_size word_timestamps) ;;
  lift_result (transcribe lib m audio_path language beam_size word_timestamps).

(** The loop [for segment in segments: ...] over the two accumulators. *)
Fixpoint for_segment_in (segments : generator) (segment_list : list pyobj)
    (full_text : list string) : py (list pyobj * list string) :=
  match segments with
  | StopIteration => ret (segment_list, full_text)
  | Yield segment rest =>
      for_segment_in rest
        (segment_list ++ [PyDict [("id", PyInt (Segment.id segment));
                                  ("start", PyFloat (Segment.start segment));
                                  ("end", PyFloat (Segment.end_ segment));
                                  ("text", PyStr (Segment.text segment))]])
        (full_text ++ [Segment.text segment])
  | GenRaise e => raise e
  end.

(** [def transcribe_audio(audio_path, language="ur")]; [None] stands for an
    omitted [language] argument. *)
Definition transcribe_audio (audio_path : string) (language : option string)
  : py pyobj :=
  let language := match language with Some l => l | None => "ur" end in
  print_stderr "Loading Whisper model..." ;;
  model <- new_WhisperModel "large-v3" "cpu" "int8" ;;
  print_stderr ("Transcribing: " ++ audio_path) ;;
  '(segments, info) <- model_transcribe model audio_path language 5 false ;;
  '(segment_list, full_text) <- for_segment_in segments [] [] ;;
  let result := PyDict [("language", PyStr (Info.language info));
                        ("duration", PyFloat (Info.duration info));
                        ("text", PyStr (join " " full_text));
                        ("segments", PyList segment_list)] in
  ret result.

(** The [if __name__ == "__main__":] block, run on [sys.argv]. *)
Definition main (argv : list string) : py unit :=
  (if Nat.ltb (length argv) 2 then
     print_stderr "Usage: python transcribe-local.py <audio_file> [language]" ;;
     sys_exit 1
   else ret tt) ;;
  audio_file <- index argv 1 ;;
  language <- (if Nat.ltb 2 (length argv) then index argv 2 else ret "ur") ;;
  try_except
    (result <- transcribe_audio audio_file (Some language) ;;
     print stdout_encoding (json_dumps float_repr result 2))
    (fun e => print_stderr ("Error: " ++ str e) ;; sys_exit 1).

(** One process: the script run from the initial world. *)
Definition run_in (argv : list string) : outcome unit * world :=
  main argv initial_world.

(** The process exit status: 0 on normal termination, the [SystemExit] code,
    and 1 for an exception that reaches the top level. *)
Definition exit_status (o : outcome unit) : Z :=
  match o with
  | Return _ => 0
  | SystemExit code => code
  | Raise _ => 1
  end.

End Driver.

(** The process where standard output is UTF-8. *)
Definition run (float_repr : float -> string) (lib : library)
    (argv : list string) : outcome unit * world :=
  run_in utf_8 float_repr lib argv.

(** ** Vocabulary of the statements *)

(** The three points at which the library can fail under the calls the
    script makes: building the model, starting the transcription, and
    decoding while the segment sequence is consumed. *)
Inductive library_raises (lib : library) (audio_path language : string)
    (e : Exception) : Prop :=
| raises_loading :
    WhisperModel lib "large-v3" "cpu" "int8" = Raised e ->
    library_raises lib audio_path language e
| raises_transcribing (m : model lib) :
    WhisperModel lib "large-v3" "cpu" "int8" = Ok m ->
    transcribe lib m audio_path language 5 false = Raised e ->
    library_raises lib audio_path language e
| raises_decoding (m : model lib) (g : generator) (info : Info.t) :
    WhisperModel lib "large-v3" "cpu" "int8" = Ok m ->
    transcribe lib m audio_path language 5 false = Ok (g, info) ->
    consume g = Raised e ->
    library_raises lib audio_path language e.

(** The library succeeds: the sequence it returns yields [segments] and then
    stops, and its summary is [info]. *)
Inductive library_returns (lib : library) (audio_path language : string)
    (segments : list Segment.t) (info : Info.t) : Prop :=
| returns_intro (m : model lib) (g : generator) :
    WhisperModel lib "large-v3" "cpu" "int8" = Ok m ->
    transcribe lib m audio_path language 5 false = Ok (g, info) ->
    consume g = Ok segments ->
    library_returns lib audio_path language segments info.

(** The entry the loop appends for one segment, and the dict the function
    returns, written as data. *)
Definition segment_dict (s : Segment.t) : pyobj :=
  PyDict [("id", PyInt (Segment.id s));
          ("start", PyFloat (Segment.start s));
          ("end", PyFloat (Segment.end_ s));
          ("text", PyStr (Segment.text s))].

Definition result_dict (info : Info.t) (segments : list Segment.t) : pyobj :=
  PyDict [("language", PyStr (Info.language info));
          ("duration", PyFloat (Info.duration info));
          ("text", PyStr (join " " (map Segment.text segments)));
          ("segments", PyList (map segment_dict segments))].

(** Reading typed entries back from an output dict. *)
Definition int_item (key : string) (o : pyobj) : option Z :=
  match getitem key o with Some (PyInt z) => Some z | _ => None end.

Definition float_item (key : string) (o : pyobj) : option float :=
  match getitem key o with Some (PyFloat f) => Some f | _ => None end.

Definition str_item (key : string) (o : pyobj) : option string :=
  match getitem key o with Some (PyStr s) => Some s | _ => None end.

Definition list_item (key : string) (o : pyobj) : option (list pyobj) :=
  match getitem key o with Some (PyList l) => Some l | _ => None end.

(** The ["text"] values of an output segments array, in array order; an
    entry without a string under ["text"] makes the whole reading fail. *)
Fixpoint texts_of (segments : list pyobj) : option (list string) :=
  match segments with
  | [] => Some []
  | d :: rest =>
      match str_item "text" d, texts_of rest with
      | Some s, Some l => Some (s :: l)
      | _, _ => None
      end
  end.

(** Adjacent elements are related by [le], pairwise along the list. *)
Fixpoint chain {A} (le : A -> A -> bool) (l : list A) : bool :=
  match l with
  | a :: (b :: _) as rest => le a b && chain le rest
  | _ => true
  end.

(** The timing invariant on the library's segments: [start <= end] for each,
    and [start] values non-decreasing along the sequence. *)
Definition timeline_ok (segments : list Segment.t) : bool :=
  forallb (fun s => PrimFloat.leb (Segment.start s) (Segment.end_ s)) segments
  && chain (fun a b => PrimFloat.leb (Segment.start a) (Segment.start b)) segments.

(** The same invariant read off the output segments array. *)
Definition item_le (k1 k2 : string) (d1 d2 : pyobj) : bool :=
  match float_item k1 d1, float_item k2 d2 with
  | Some x, Some y => PrimFloat.leb x y
  | _, _ => false
  end.

Definition output_timeline_ok (segments : list pyobj) : bool :=
  forallb (fun d => item_le "start" "end" d d) segments
  && chain (item_le "start" "start") segments.

(** The expected layout of the document, written out with its literal
    indentation: two spaces per nesting level. *)
Definition json_key (k : string) : string :=
  String dquote (k ++ String dquote ": ").

Definition segment_layout (float_repr : float -> string) (s : Segment.t)
  : string :=
  ("{" ++ newline
   ++ "      " ++ json_key "id" ++ int_repr (Segment.id s) ++ "," ++ newline
   ++ "      " ++ json_key "start" ++ floatstr float_repr (Segment.start s)
   ++ "," ++ newline
   ++ "      " ++ json_key "end" ++ floatstr float_repr (Segment.end_ s)
   ++ "," ++ newline
   ++ "      " ++ json_key "text" ++ encode_basestring (Segment.text s)
   ++ newline
   ++ "    }")%string.

Definition segments_layout (float_repr : float -> string)
    (segments : list Segment.t) : string :=
  match segments with
  | [] => "[]"
  | _ => ("[" ++ newline ++ "    "
          ++ join ("," ++ newline ++ "    ")
                  (map (segment_layout float_repr) segments)
          ++ newline ++ "  ]")%string
  end.

Definition document_layout (float_repr : float -> string)
    (info : Info.t) (segments : list Segment.t) : string :=
  ("{" ++ newline
   ++ "  " ++ json_key "language" ++ encode_basestring (Info.language info)
   ++ "," ++ newline
   ++ "  " ++ json_key "duration" ++ floatstr float_repr (Info.duration info)
   ++ "," ++ newline
   ++ "  " ++ json_key "text"
   ++ encode_basestring (join " " (map Segment.text segments))
   ++ "," ++ newline
   ++ "  " ++ json_key "segments" ++ segments_layout float_repr segments
   ++ newline
   ++ "}")%string.

(** The progress and error lines of the diagnostic stream. *)
Definition loading_line : string := ("Loading Whisper model..." ++ newline)%string.

Definition transcribing_line (audio_path : string) : string :=
  ("Transcribing: " ++ audio_path ++ newline)%string.

Definition error_line (e : Exception) : string :=
  ("Error: " ++ str e ++ newline)%string.

Definition usage_line : string :=
  ("Usage: python transcribe-local.py <audio_file> [language]" ++ newline)%string.

(** The world after the first progress line and the model construction. *)
Definition after_loading (w : world) : world :=
  mkWorld (stdout w) (stderr w ++ loading_line)%string
          (calls w ++ [Call_WhisperModel "large-v3" "cpu" "int8"]).

(** The world after the second progress line and the transcription call. *)
Definition after_transcribing (audio_path language : string) (w : world)
  : world :=
  mkWorld (stdout w)
          ((stderr w ++ loading_line) ++ transcribing_line audio_path)%string
          ((calls w ++ [Call_WhisperModel "large-v3" "cpu" "int8"])
           ++ [Call_transcribe audio_path language 5 false]).

(** ** A small concrete library, for running the script *)

Module Demo.

Definition seg1 : Segment.t := Segment.mk 0 0%float 1.5%float " salaam".
Definition seg2 : Segment.t := Segment.mk 1 1.5%float 3.25%float " dunya ".

(** [float.__repr__] on the few values the demo uses. *)
Definition float_repr (f : float) : string :=
  if PrimFloat.eqb f 0%float then "0.0"
  else if PrimFloat.eqb f 1.5%float then "1.5"
  else if PrimFloat.eqb f 3.25%float then "3.25"
  else "4.0".

Definition info (language : string) : Info.t := Info.mk language 3.25%float.

(** A library that always transcribes to the two segments above. *)
Definition lib : library :=
  mkLibrary unit
    (fun _ _ _ => Ok tt)
    (fun _ _ language _ _ => Ok (generator_of [seg1; seg2], info language)).

(** A library that finds no speech. *)
Definition silent_lib : library :=
  mkLibrary unit
    (fun _ _ _ => Ok tt)
    (fun _ _ language _ _ => Ok (StopIteration, info language)).

(** The same behaviour behind a different kind of model handle. *)
Definition other_silent_lib : library :=
  mkLibrary bool
    (fun _ _ _ => Ok true)
    (fun _ _ language _ _ => Ok (generator_of [], info language)).

(** A library whose decoder fails after the first segment. *)
Definition failing_lib : library :=
  mkLibrary unit
    (fun _ _ _ => Ok tt)
    (fun _ _ language _ _ =>
       Ok (Yield seg1 (GenRaise (mkException "corrupt audio")), info language)).

(** A library whose segments run backwards in time. *)
Definition backwards_lib : library :=
  mkLibrary unit
    (fun _ _ _ => Ok tt)
    (fun _ _ language _ _ => Ok (generator_of [seg2; seg1], info language)).

End Demo.

(** ** The effect monad *)

Lemma bind_ret {A B} (a : A) (k : A -> py B) (w : world) :
  bind (ret a) k w = k a w.
Proof. reflexivity. Qed.

Lemma bind_raise {A B} (e : Exception) (k : A -> py B) (w : world) :
  bind (raise e) k w = (Raise e, w).
Proof. reflexivity. Qed.

Lemma bind_assoc {A B C} (c : py A) (k : A -> py B) (h : B -> py C) (w : world) :
  bind (bind c k) h w = bind c (fun a => bind (k a) h) w.
Proof.
  unfold bind. destruct (c w) as [[a | e | code] w']; reflexivity.
Qed.

(** ** Strings and [join] *)

Lemma append_assoc (a b c : string) :
  ((a ++ b) ++ c)%string = (a ++ (b ++ c))%string.
Proof. induction a as [| x a IH]; simpl; [reflexivity | now rewrite IH]. Qed.

(** Both sides of an equation between strings, computed and re-associated to
    the right. *)
Ltac string_normal :=
  repeat (progress cbn -[int_repr floatstr] || rewrite append_assoc).

Lemma join_cons (sep x y : string) (rest : list string) :
  join sep (x :: y :: rest) = (x ++ sep ++ join sep (y :: rest))%string.
Proof. reflexivity. Qed.

(** ** The loop over the segment sequence *)

(** The loop makes exactly one pass: it returns both accumulators extended,
    in encounter order, when the sequence stops, and raises what the
    sequence raises otherwise, leaving the streams untouched. *)
Lemma for_segment_in_consume (g : generator) :
  forall (segment_list : list pyobj) (full_text : list string) (w : world),
    for_segment_in g segment_list full_text w =
    match consume g with
    | Ok segments =>
        (Return (segment_list ++ map segment_dict segments,
                 full_text ++ map Segment.text segments), w)
    | Raised e => (Raise e, w)
    end.
Proof.
  induction g as [| s rest IH | e]; intros sl ft w; simpl.
  - now rewrite !app_nil_r.
  - rewrite IH. destruct (consume rest) as [l | e]; [| reflexivity].
    simpl. now rewrite <- !app_assoc.
  - reflexivity.
Qed.

Lemma consume_generator_of (l : list Segment.t) : consume (generator_of l) = Ok l.
Proof. induction l as [| s l IH]; simpl; [reflexivity | now rewrite IH]. Qed.

(** ** Reading the output back *)

Lemma texts_of_segment_dicts (segments : list Segment.t) :
  texts_of (map segment_dict segments) = Some (map Segment.text segments).
Proof.
  induction segments as [| s l IH]; simpl; [reflexivity |].
  rewrite IH. reflexivity.
Qed.

Lemma string_length_append (a b : string) :
  String.length (a ++ b) = String.length a + String.length b.
Proof. induction a as [| c a IH]; simpl; [reflexivity | now rewrite IH]. Qed.

(** [join] keeps every character of every part and adds one separator
    between neighbours: nothing is trimmed or dropped. *)
Lemma join_length (sep : string) (parts : list string) :
  String.length (join sep parts) =
  list_sum (map String.length parts) + String.length sep * (length parts - 1).
Proof.
  induction parts as [| x l IH]; [simpl; lia |].
  destruct l as [| y rest]; [simpl; lia |].
  rewrite join_cons, !string_length_append, IH.
  cbn [map list_sum fold_right length].
  rewrite !Nat.sub_succ, !Nat.sub_0_r, Nat.mul_succ_r. lia.
Qed.

Lemma chain_map {A B} (f : A -> B) (le : B -> B -> bool) (l : list A) :
  chain le (map f l) = chain (fun a b => le (f a) (f b)) l.
Proof.
  induction l as [| a l IH]; [reflexivity |].
  destruct l as [| b rest]; [reflexivity |].
  cbn [map chain] in *. now rewrite IH.
Qed.

Lemma forallb_over_map {A B} (f : A -> B) (p : B -> bool) (l : list A) :
  forallb p (map f l) = forallb (fun a => p (f a)) l.
Proof. induction l as [| a l IH]; simpl; [reflexivity | now rewrite IH]. Qed.

Lemma output_timeline_of_segment_dicts (segments : list Segment.t) :
  output_timeline_ok (map segment_dict segments) = timeline_ok segments.
Proof.
  unfold output_timeline_ok, timeline_ok.
  rewrite forallb_over_map, chain_map. reflexivity.
Qed.

(** ** String escaping *)

(** A byte that [ESCAPE] does not match is copied as it is. *)
Lemma escape_char_unmatched (c : ascii) :
  32 <= nat_of_ascii c -> nat_of_ascii c <> 34 -> nat_of_ascii c <> 92 ->
  escape_char c = String c EmptyString.
Proof.
  intros Hlo Hq Hb. unfold escape_char.
  repeat match goal with
         | |- context [Nat.eqb ?a ?b] =>
             destruct (Nat.eqb_spec a b); [lia |]
         end.
  destruct (Nat.ltb_spec (nat_of_ascii c) 32); [lia | reflexivity].
Qed.

(** Every byte of a multi-byte UTF-8 sequence is at least 0x80: it is
    emitted as it is, never as an escape sequence. *)
Lemma escape_char_non_ascii (c : ascii) :
  128 <= nat_of_ascii c -> escape_char c = String c EmptyString.
Proof. intros H. apply escape_char_unmatched; lia. Qed.

Lemma escape_non_ascii (s : string) :
  Forall (fun c => 128 <= nat_of_ascii c) (list_ascii_of_string s) ->
  escape s = s.
Proof.
  induction s as [| c s IH]; simpl; intros H; [reflexivity |].
  inversion H as [| ? ? Hc Hs]; subst.
  rewrite (escape_char_non_ascii c Hc), (IH Hs). reflexivity.
Qed.

Section DriverFacts.

Variable float_repr : float -> string.
Variable lib : library.

(** ** [transcribe_audio] *)

(** The function, case by case on what the library does. *)
Lemma transcribe_audio_cases (audio_path language : string) (w : world) :
  transcribe_audio lib audio_path (Some language) w =
  match WhisperModel lib "large-v3" "cpu" "int8" with
  | Raised e => (Raise e, after_loading w)
  | Ok m =>
      match transcribe lib m audio_path language 5 false with
      | Raised e => (Raise e, after_transcribing audio_path language w)
      | Ok (g, info) =>
          match consume g with
          | Raised e => (Raise e, after_transcribing audio_path language w)
          | Ok segments =>
              (Return (result_dict info segments),
               after_transcribing audio_path language w)
          end
      end
  end.
Proof.
  unfold transcribe_audio, new_WhisperModel, model_transcribe, bind,
    print_stderr, log_call; simpl.
  destruct (WhisperModel lib "large-v3" "cpu" "int8") as [m | e]; simpl;
    [| reflexivity].
  destruct (transcribe lib m audio_path language 5 false) as [[g info] | e];
    simpl; [| reflexivity].
  rewrite for_segment_in_consume.
  destruct (consume g) as [segments | e]; reflexivity.
Qed.

Lemma transcribe_audio_returns (audio_path language : string)
    (segments : list Segment.t) (info : Info.t) (w : world) :
  library_returns lib audio_path language segments info ->
  transcribe_audio lib audio_path (Some language) w =
  (Return (result_dict info segments),
   after_transcribing audio_path language w).
Proof.
  intros [m g Hm Ht Hg].
  now rewrite transcribe_audio_cases, Hm, Ht, Hg.
Qed.

Lemma transcribe_audio_raises (audio_path language : string)
    (e : Exception) (w : world) :
  library_raises lib audio_path language e ->
  transcribe_audio lib audio_path (Some language) w = (Raise e, after_loading w)
  \/ transcribe_audio lib audio_path (Some language) w =
     (Raise e, after_transcribing audio_path language w).
Proof.
  intros [Hm | m Hm Ht | m g info Hm Ht Hg]; rewrite transcribe_audio_cases, Hm.
  - now left.
  - right. now rewrite Ht.
  - right. now rewrite Ht, Hg.
Qed.

(** The default of the [language] parameter. *)
Lemma transcribe_audio_default_language (audio_path : string) :
  transcribe_audio lib audio_path None = transcribe_audio lib audio_path (Some "ur").
Proof. reflexivity. Qed.

End DriverFacts.

(** ** The main block *)

Section MainFacts.

Variable stdout_encoding : encoding.
Variable float_repr : float -> string.
Variable lib : library.

(** With the audio argument present, the guard falls through, both index
    operations are in range, and the language is the third entry when there
    is one and ["ur"] otherwise. *)
Lemma main_with_audio (prog audio_file : string) (rest : list string) (w : world) :
  main stdout_encoding float_repr lib (prog :: audio_file :: rest) w =
  try_except
    (result <- transcribe_audio lib audio_file (Some (hd "ur" rest)) ;;
     print stdout_encoding (json_dumps float_repr result 2))
    (fun e => print_stderr ("Error: " ++ str e) ;; sys_exit 1) w.
Proof. destruct rest; reflexivity. Qed.

Lemma main_usage (argv : list string) (w : world) :
  length argv < 2 ->
  main stdout_encoding float_repr lib argv w =
  (SystemExit 1, mkWorld (stdout w) (stderr w ++ usage_line)%string (calls w)).
Proof.
  destruct argv as [| prog [| audio_file rest]]; simpl; intros H;
    [reflexivity | reflexivity | lia].
Qed.

(** The whole process under any encoding of standard output, case by case
    on what the library does and on whether the stream takes the
    document. *)
Lemma run_in_cases (prog audio_file : string) (rest : list string) :
  run_in stdout_encoding float_repr lib (prog :: audio_file :: rest) =
  let language := hd "ur" rest in
  let calls2 := [Call_WhisperModel "large-v3" "cpu" "int8";
                 Call_transcribe audio_file language 5 false] in
  let progress2 := (loading_line ++ transcribing_line audio_file)%string in
  match WhisperModel lib "large-v3" "cpu" "int8" with
  | Raised e =>
      (SystemExit 1,
       mkWorld EmptyString (loading_line ++ error_line e)
               [Call_WhisperModel "large-v3" "cpu" "int8"])
  | Ok m =>
      match transcribe lib m audio_file language 5 false with
      | Raised e =>
          (SystemExit 1, mkWorld EmptyString (progress2 ++ error_line e) calls2)
      | Ok (g, info) =>
          match consume g with
          | Raised e =>
              (SystemExit 1,
               mkWorld EmptyString (progress2 ++ error_line e) calls2)
          | Ok segments =>
              let document :=
                json_dumps float_repr (result_dict info segments) 2 in
              if accepts stdout_encoding document then
                (Return tt,
                 mkWorld (document ++ newline) progress2 calls2)
              else
                (SystemExit 1,
                 mkWorld EmptyString
                   (progress2
                    ++ error_line (encode_error stdout_encoding document))
                   calls2)
          end
      end
  end.
Proof.
  unfold run_in. rewrite main_with_audio.
  unfold try_except, bind. rewrite transcribe_audio_cases.
  destruct (WhisperModel lib "large-v3" "cpu" "int8") as [m | e];
    [| reflexivity].
  destruct (transcribe lib m audio_file (hd "ur" rest) 5 false)
    as [[g info] | e]; [| cbn; now rewrite !append_assoc].
  destruct (consume g) as [segments | e];
    [| cbn; now rewrite !append_assoc].
  cbv zeta. unfold print.
  destruct (accepts stdout_encoding
              (json_dumps float_repr (result_dict info segments) 2));
    cbn; [reflexivity | now rewrite !append_assoc].
Qed.

End MainFacts.

Section RunFacts.

Variable float_repr : float -> string.
Variable lib : library.

(** The whole process under UTF-8, case by case on what the library does. *)
Lemma run_cases (prog audio_file : string) (rest : list string) :
  run float_repr lib (prog :: audio_file :: rest) =
  let language := hd "ur" rest in
  let calls2 := [Call_WhisperModel "large-v3" "cpu" "int8";
                 Call_transcribe audio_file language 5 false] in
  let progress2 := (loading_line ++ transcribing_line audio_file)%string in
  match WhisperModel lib "large-v3" "cpu" "int8" with
  | Raised e =>
      (SystemExit 1,
       mkWorld EmptyString (loading_line ++ error_line e)
               [Call_WhisperModel "large-v3" "cpu" "int8"])
  | Ok m =>
      match transcribe lib m audio_file language 5 false with
      | Raised e =>
          (SystemExit 1, mkWorld EmptyString (progress2 ++ error_line e) calls2)
      | Ok (g, info) =>
          match consume g with
          | Raised e =>
              (SystemExit 1,
               mkWorld EmptyString (progress2 ++ error_line e) calls2)
          | Ok segments =>
              (Return tt,
               mkWorld (json_dumps float_repr (result_dict info segments) 2
                        ++ newline)
                       progress2 calls2)
          end
      end
  end.
Proof.
  unfold run. rewrite run_in_cases. reflexivity.
Qed.

(** ** The returned object *)

(** C1. When the library succeeds, the ["text"] entry of the returned object
    is the ["text"] values of its own ["segments"] array joined by single
    spaces, in array order; these are the library's segment texts,
    unchanged, so the joined text has every character of every segment text
    plus one space between neighbours. *)
Theorem C1_text_is_space_joined_segment_texts
    (audio_path language : string) (segments : list Segment.t)
    (info : Info.t) (w : world) :
  library_returns lib audio_path language segments info ->
  exists (result : pyobj) (out : list pyobj) (texts : list string),
    fst (transcribe_audio lib audio_path (Some language) w) = Return result /\
    list_item "segments" result = Some out /\
    texts_of out = Some texts /\
    str_item "text" result = Some (join " " texts) /\
    texts = map Segment.text segments /\
    String.length (join " " texts) =
      list_sum (map String.length texts) + (length texts - 1).
Proof.
  intros H.
  exists (result_dict info segments), (map segment_dict segments),
    (map Segment.text segments).
  rewrite (transcribe_audio_returns lib _ _ _ _ w H).
  repeat split.
  - apply texts_of_segment_dicts.
  - rewrite join_length. simpl String.length. lia.
Qed.

(** C7. When the library succeeds, the ["segments"] array of the returned
    object has one entry per segment the library produced, in the same
    order, and the entry at each position holds exactly the keys id, start,
    end and text with the values of that segment, unchanged. *)
Theorem C7_segments_copied_verbatim_in_order
    (audio_path language : string) (segments : list Segment.t)
    (info : Info.t) (w : world) :
  library_returns lib audio_path language segments info ->
  exists (result : pyobj) (out : list pyobj),
    fst (transcribe_audio lib audio_path (Some language) w) = Return result /\
    list_item "segments" result = Some out /\
    length out = length segments /\
    forall (i : nat) (s : Segment.t),
      nth_error segments i = Some s ->
      exists d : pyobj,
        nth_error out i = Some d /\
        keys d = ["id"; "start"; "end"; "text"] /\
        int_item "id" d = Some (Segment.id s) /\
        float_item "start" d = Some (Segment.start s) /\
        float_item "end" d = Some (Segment.end_ s) /\
        str_item "text" d = Some (Segment.text s).
Proof.
  intros H.
  exists (result_dict info segments), (map segment_dict segments).
  rewrite (transcribe_audio_returns lib _ _ _ _ w H).
  split; [reflexivity | split; [reflexivity | split]].
  - apply length_map.
  - intros i s Hi. exists (segment_dict s).
    split; [now apply map_nth_error | repeat split].
Qed.

(** C5. When the library succeeds, the output segments array satisfies the
    timing invariant (start <= end for each entry, start values
    non-decreasing along the array) exactly when the segments the library
    produced satisfy it: the script passes the invariant through and does
    not enforce it. *)
Theorem C5_timeline_inherited_from_library
    (audio_path language : string) (segments : list Segment.t)
    (info : Info.t) (w : world) :
  library_returns lib audio_path language segments info ->
  exists (result : pyobj) (out : list pyobj),
    fst (transcribe_audio lib audio_path (Some language) w) = Return result /\
    list_item "segments" result = Some out /\
    (timeline_ok segments = true -> output_timeline_ok out = true) /\
    (timeline_ok segments = false -> output_timeline_ok out = false).
Proof.
  intros H.
  exists (result_dict info segments), (map segment_dict segments).
  rewrite (transcribe_audio_returns lib _ _ _ _ w H).
  split; [reflexivity | split; [reflexivity |]].
  rewrite output_timeline_of_segment_dicts. split; auto.
Qed.

(** ** The printed document *)

Lemma iterencode_segment_dict (s : Segment.t) :
  iterencode float_repr 2 (segment_dict s) 2 = segment_layout float_repr s.
Proof. unfold segment_layout, segment_dict. now string_normal. Qed.

Lemma iterencode_segment_dicts (segments : list Segment.t) :
  iterencode float_repr 2 (PyList (map segment_dict segments)) 1 =
  segments_layout float_repr segments.
Proof.
  destruct segments as [| s l]; [reflexivity |].
  unfold segments_layout.
  rewrite <- (map_ext _ _ iterencode_segment_dict).
  rewrite <- (map_map segment_dict (fun d => iterencode float_repr 2 d 2)).
  reflexivity.
Qed.

(** [json.dumps(result, ensure_ascii=False, indent=2)] on the returned
    object is the document laid out with two spaces per level. *)
Lemma json_dumps_result_dict (info : Info.t) (segments : list Segment.t) :
  json_dumps float_repr (result_dict info segments) 2 =
  document_layout float_repr info segments.
Proof.
  unfold document_layout. rewrite <- iterencode_segment_dicts.
  unfold json_dumps, result_dict.
  set (block := iterencode float_repr 2 (PyList (map segment_dict segments)) 1).
  change (iterencode float_repr 2 (PyDict ?items) 0) with
    ("{" ++ newline_indent 2 1
     ++ join ("," ++ newline_indent 2 1)
          [encode_basestring "language" ++ ": "
             ++ encode_basestring (Info.language info);
           encode_basestring "duration" ++ ": "
             ++ floatstr float_repr (Info.duration info);
           encode_basestring "text" ++ ": "
             ++ encode_basestring (join " " (map Segment.text segments));
           encode_basestring "segments" ++ ": " ++ block]
     ++ newline_indent 2 0 ++ "}")%string.
  now string_normal.
Qed.

(** ** The calls made on the library *)

Lemma run_calls (argv : list string) :
  calls (snd (run float_repr lib argv)) =
  match argv with
  | _ :: audio_file :: rest =>
      Call_WhisperModel "large-v3" "cpu" "int8"
      :: match WhisperModel lib "large-v3" "cpu" "int8" with
         | Ok _ => [Call_transcribe audio_file (hd "ur" rest) 5 false]
         | Raised _ => []
         end
  | _ => []
  end.
Proof.
  destruct argv as [| prog [| audio_file rest]]; try reflexivity.
  rewrite run_cases. cbv zeta.
  destruct (WhisperModel lib "large-v3" "cpu" "int8") as [m | e];
    [| reflexivity].
  destruct (transcribe lib m audio_file (hd "ur" rest) 5 false)
    as [[g info] | e]; [| reflexivity].
  destruct (consume g); reflexivity.
Qed.

(** Every run ends in one of two ways: normally, or through [sys.exit(1)].
    No exception reaches the top level, whatever the command line and
    whatever the library does. *)
Lemma run_ends_normally_or_exits_1 (argv : list string) :
  fst (run float_repr lib argv) = Return tt \/
  fst (run float_repr lib argv) = SystemExit 1.
Proof.
  destruct argv as [| prog [| audio_file rest]]; try (now right).
  rewrite run_cases. cbv zeta.
  destruct (WhisperModel lib "large-v3" "cpu" "int8") as [m | e];
    [| now right].
  destruct (transcribe lib m audio_file (hd "ur" rest) 5 false)
    as [[g info] | e]; [| now right].
  destruct (consume g); [now left | now right].
Qed.

(** ** The process *)

(** C2. When the library raises an exception [e] at any of its three
    points (model construction, transcription call, decoding during the
    pass over the segments), the exception does not escape: the process
    ends through [sys.exit(1)], standard output is empty, and the
    diagnostic stream holds the progress lines printed so far followed by
    the one line [Error: <str e>]. *)
Theorem C2_failure_prints_error_and_exits_1
    (prog audio_file : string) (rest : list string) (e : Exception) :
  library_raises lib audio_file (hd "ur" rest) e ->
  fst (run float_repr lib (prog :: audio_file :: rest)) = SystemExit 1 /\
  exit_status (fst (run float_repr lib (prog :: audio_file :: rest))) = 1%Z /\
  stdout (snd (run float_repr lib (prog :: audio_file :: rest))) = EmptyString /\
  (stderr (snd (run float_repr lib (prog :: audio_file :: rest)))
     = (loading_line ++ error_line e)%string
   \/ stderr (snd (run float_repr lib (prog :: audio_file :: rest)))
     = ((loading_line ++ transcribing_line audio_file) ++ error_line e)%string).
Proof.
  intros H. rewrite run_cases. cbv zeta.
  destruct H as [Hm | m Hm Ht | m g info Hm Ht Hg]; rewrite Hm.
  - cbn. auto.
  - rewrite Ht. cbn. auto.
  - rewrite Ht, Hg. cbn. auto.
Qed.

(** C3. With fewer than two entries in [sys.argv], the process prints the
    usage line to the diagnostic stream, exits with status 1, prints
    nothing on standard output, and has made no call on the library. *)
Theorem C3_missing_argument_prints_usage_and_exits_1 (argv : list string) :
  length argv < 2 ->
  fst (run float_repr lib argv) = SystemExit 1 /\
  exit_status (fst (run float_repr lib argv)) = 1%Z /\
  stderr (snd (run float_repr lib argv)) = usage_line /\
  stdout (snd (run float_repr lib argv)) = EmptyString /\
  calls (snd (run float_repr lib argv)) = [].
Proof.
  intros H. unfold run, run_in.
  rewrite (main_usage utf_8 float_repr lib argv initial_world H).
  repeat split.
Qed.

(** C4. When [sys.argv] has no language entry, every transcription call the
    process makes on the library carries the language ["ur"]; with the audio
    argument present and the model built, there is exactly one such call,
    on that audio path.  The function's own default for an omitted
    [language] argument is ["ur"] as well. *)
Theorem C4_omitted_language_defaults_to_ur (argv : list string) :
  length argv <= 2 ->
  (forall (p l : string) (b : Z) (t : bool),
      In (Call_transcribe p l b t) (calls (snd (run float_repr lib argv))) ->
      l = "ur") /\
  (forall (prog audio_file : string) (m : model lib),
      argv = [prog; audio_file] ->
      WhisperModel lib "large-v3" "cpu" "int8" = Ok m ->
      calls (snd (run float_repr lib argv)) =
      [Call_WhisperModel "large-v3" "cpu" "int8";
       Call_transcribe audio_file "ur" 5 false]) /\
  (forall audio_path : string,
      transcribe_audio lib audio_path None =
      transcribe_audio lib audio_path (Some "ur")).
Proof.
  intros Hlen. rewrite run_calls. split; [| split].
  - destruct argv as [| prog [| audio_file [| x rest]]].
    + intros p l b t Hin. destruct Hin.
    + intros p l b t Hin. destruct Hin.
    + intros p l b t [Hin | Hin]; [discriminate |].
      destruct (WhisperModel lib "large-v3" "cpu" "int8"); [| destruct Hin].
      destruct Hin as [Heq | Hin]; [now inversion Heq | destruct Hin].
    + simpl in Hlen. lia.
  - intros prog audio_file m -> Hm. now rewrite Hm.
  - reflexivity.
Qed.

(** C10. When the library's segment sequence is empty, the function still
    returns: the ["text"] entry is the empty string, the ["segments"] entry
    the empty array, and language and duration are those of the library's
    summary; the process ends normally and prints that document. *)
Theorem C10_empty_sequence_gives_empty_text_and_segments
    (prog audio_file : string) (rest : list string) (info : Info.t) :
  library_returns lib audio_file (hd "ur" rest) [] info ->
  exists result : pyobj,
    fst (transcribe_audio lib audio_file (Some (hd "ur" rest)) initial_world)
      = Return result /\
    str_item "text" result = Some EmptyString /\
    list_item "segments" result = Some [] /\
    str_item "language" result = Some (Info.language info) /\
    float_item "duration" result = Some (Info.duration info) /\
    fst (run float_repr lib (prog :: audio_file :: rest)) = Return tt /\
    stdout (snd (run float_repr lib (prog :: audio_file :: rest)))
      = ("{" ++ newline
         ++ "  " ++ json_key "language"
         ++ encode_basestring (Info.language info) ++ "," ++ newline
         ++ "  " ++ json_key "duration"
         ++ floatstr float_repr (Info.duration info) ++ "," ++ newline
         ++ "  " ++ json_key "text"
         ++ String dquote (String dquote EmptyString) ++ "," ++ newline
         ++ "  " ++ json_key "segments" ++ "[]" ++ newline
         ++ "}" ++ newline)%string.
Proof.
  intros H. exists (result_dict info []).
  rewrite (transcribe_audio_returns lib _ _ _ _ initial_world H).
  rewrite run_cases. cbv zeta.
  destruct H as [m g Hm Ht Hg]. rewrite Hm, Ht, Hg.
  repeat split.
  cbn [snd stdout]. rewrite json_dumps_result_dict.
  unfold document_layout. now string_normal.
Qed.

End RunFacts.

(** ** Two runs *)

(** C9. Two runs on the same command line, against libraries that return
    the same segment sequence and the same summary for the calls the script
    makes, end in the same way with the same standard output, diagnostic
    output and call log; the returned objects are equal. *)
Theorem C9_deterministic_relative_to_library
    (float_repr : float -> string) (lib1 lib2 : library)
    (prog audio_file : string) (rest : list string)
    (segments : list Segment.t) (info : Info.t) :
  library_returns lib1 audio_file (hd "ur" rest) segments info ->
  library_returns lib2 audio_file (hd "ur" rest) segments info ->
  run float_repr lib1 (prog :: audio_file :: rest) =
  run float_repr lib2 (prog :: audio_file :: rest) /\
  forall w : world,
    transcribe_audio lib1 audio_file (Some (hd "ur" rest)) w =
    transcribe_audio lib2 audio_file (Some (hd "ur" rest)) w.
Proof.
  intros H1 H2. split.
  - rewrite !run_cases. cbv zeta.
    destruct H1 as [m1 g1 Hm1 Ht1 Hg1], H2 as [m2 g2 Hm2 Ht2 Hg2].
    now rewrite Hm1, Ht1, Hg1, Hm2, Ht2, Hg2.
  - intros w.
    now rewrite (transcribe_audio_returns lib1 _ _ _ _ w H1),
      (transcribe_audio_returns lib2 _ _ _ _ w H2).
Qed.

(** ** The script on concrete command lines *)

(** A run of the script on two segments. *)
Example demo_run_stdout :
  stdout (snd (run Demo.float_repr Demo.lib ["transcribe-local.py"; "naat.mp3"]))
  = (document_layout Demo.float_repr (Demo.info "ur") [Demo.seg1; Demo.seg2]
     ++ newline)%string.
Proof. vm_compute. reflexivity. Qed.

(** The script does not enforce the timing invariant: segments that run
    backwards in time are passed through as they are. *)
Example demo_backwards_timeline_passed_through :
  timeline_ok [Demo.seg2; Demo.seg1] = false /\
  fst (transcribe_audio Demo.backwards_lib "naat.mp3" (Some "ur") initial_world)
  = Return (result_dict (Demo.info "ur") [Demo.seg2; Demo.seg1]) /\
  output_timeline_ok (map segment_dict [Demo.seg2; Demo.seg1]) = false.
Proof. repeat split. Qed.

(** A failure while decoding discards the segment already consumed. *)
Example demo_failure_leaves_stdout_empty :
  run Demo.float_repr Demo.failing_lib ["transcribe-local.py"; "naat.mp3"] =
  (SystemExit 1,
   mkWorld EmptyString
     ((loading_line ++ transcribing_line "naat.mp3")
      ++ error_line (mkException "corrupt audio"))
     [Call_WhisperModel "large-v3" "cpu" "int8";
      Call_transcribe "naat.mp3" "ur" 5 false]).
Proof. vm_compute. reflexivity. Qed.

Lemma C1_witness :
  exists (result : pyobj) (out : list pyobj) (texts : list string),
    fst (transcribe_audio Demo.lib "naat.mp3" (Some "ur") initial_world)
      = Return result /\
    list_item "segments" result = Some out /\
    texts_of out = Some texts /\
    str_item "text" result = Some (join " " texts) /\
    texts = map Segment.text [Demo.seg1; Demo.seg2] /\
    String.length (join " " texts) =
      list_sum (map String.length texts) + (length texts - 1).
Proof.
  apply (C1_text_is_space_joined_segment_texts Demo.lib "naat.mp3" "ur"
           [Demo.seg1; Demo.seg2] (Demo.info "ur") initial_world).
  apply (returns_intro Demo.lib _ _ _ _ tt (generator_of [Demo.seg1; Demo.seg2]));
    reflexivity.
Defined.

Lemma C2_witness :
  fst (run Demo.float_repr Demo.failing_lib ["transcribe-local.py"; "naat.mp3"])
    = SystemExit 1 /\
  stdout (snd (run Demo.float_repr Demo.failing_lib
                 ["transcribe-local.py"; "naat.mp3"])) = EmptyString.
Proof.
  destruct (C2_failure_prints_error_and_exits_1 Demo.float_repr
              Demo.failing_lib "transcribe-local.py" "naat.mp3" []
              (mkException "corrupt audio")) as (Hexit & _ & Hout & _).
  - apply (raises_decoding Demo.failing_lib _ _ _ tt
             (Yield Demo.seg1 (GenRaise (mkException "corrupt audio")))
             (Demo.info "ur")); reflexivity.
  - split; [exact Hexit | exact Hout].
Defined.

Lemma C3_witness :
  length ["transcribe-local.py"] < 2 /\
  fst (run Demo.float_repr Demo.lib ["transcribe-local.py"]) = SystemExit 1 /\
  exit_status (fst (run Demo.float_repr Demo.lib ["transcribe-local.py"])) = 1%Z /\
  stderr (snd (run Demo.float_repr Demo.lib ["transcribe-local.py"])) = usage_line /\
  stdout (snd (run Demo.float_repr Demo.lib ["transcribe-local.py"])) = EmptyString /\
  calls (snd (run Demo.float_repr Demo.lib ["transcribe-local.py"])) = [].
Proof.
  split; [simpl; lia |].
  apply (C3_missing_argument_prints_usage_and_exits_1 Demo.float_repr Demo.lib
           ["transcribe-local.py"]).
  simpl; lia.
Defined.

Lemma C4_witness :
  calls (snd (run Demo.float_repr Demo.lib ["transcribe-local.py"; "naat.mp3"])) =
  [Call_WhisperModel "large-v3" "cpu" "int8";
   Call_transcribe "naat.mp3" "ur" 5 false].
Proof.
  destruct (C4_omitted_language_defaults_to_ur Demo.float_repr Demo.lib
              ["transcribe-local.py"; "naat.mp3"]) as (_ & Hcalls & _).
  - simpl; lia.
  - apply (Hcalls "transcribe-local.py" "naat.mp3" tt); reflexivity.
Defined.

Lemma C5_witness :
  timeline_ok [Demo.seg1; Demo.seg2] = true /\
  exists (result : pyobj) (out : list pyobj),
    fst (transcribe_audio Demo.lib "naat.mp3" (Some "ur") initial_world)
      = Return result /\
    list_item "segments" result = Some out /\
    output_timeline_ok out = true.
Proof.
  split; [reflexivity |].
  destruct (C5_timeline_inherited_from_library Demo.lib "naat.mp3" "ur"
              [Demo.seg1; Demo.seg2] (Demo.info "ur") initial_world)
    as (result & out & Hret & Hseg & Hok & _).
  - apply (returns_intro Demo.lib _ _ _ _ tt
             (generator_of [Demo.seg1; Demo.seg2])); reflexivity.
  - exists result, out. split; [exact Hret | split; [exact Hseg |]].
    apply Hok. reflexivity.
Defined.

Lemma C7_witness :
  exists (result : pyobj) (out : list pyobj),
    fst (transcribe_audio Demo.lib "naat.mp3" (Some "ur") initial_world)
      = Return result /\
    list_item "segments" result = Some out /\
    length out = 2 /\
    exists d : pyobj,
      nth_error out 1 = Some d /\
      int_item "id" d = Some 1%Z /\
      float_item "start" d = Some 1.5%float /\
      float_item "end" d = Some 3.25%float /\
      str_item "text" d = Some " dunya ".
Proof.
  destruct (C7_segments_copied_verbatim_in_order Demo.lib "naat.mp3" "ur"
              [Demo.seg1; Demo.seg2] (Demo.info "ur") initial_world)
    as (result & out & Hret & Hseg & Hlen & Hat).
  - apply (returns_intro Demo.lib _ _ _ _ tt
             (generator_of [Demo.seg1; Demo.seg2])); reflexivity.
  - exists result, out. split; [exact Hret | split; [exact Hseg |]].
    split; [exact Hlen |].
    destruct (Hat 1 Demo.seg2 eq_refl) as (d & Hd & _ & Hid & Hs & He & Ht).
    exists d. repeat split; assumption.
Defined.

Lemma C9_witness :
  run Demo.float_repr Demo.silent_lib ["transcribe-local.py"; "naat.mp3"] =
  run Demo.float_repr Demo.other_silent_lib ["transcribe-local.py"; "naat.mp3"].
Proof.
  apply (C9_deterministic_relative_to_library Demo.float_repr
           Demo.silent_lib Demo.other_silent_lib
           "transcribe-local.py" "naat.mp3" [] [] (Demo.info "ur")).
  - apply (returns_intro Demo.silent_lib _ _ _ _ tt StopIteration); reflexivity.
  - apply (returns_intro Demo.other_silent_lib _ _ _ _ true StopIteration);
      reflexivity.
Defined.

Lemma C10_witness :
  exists result : pyobj,
    fst (transcribe_audio Demo.silent_lib "naat.mp3" (Some "ur") initial_world)
      = Return result /\
    str_item "text" result = Some EmptyString /\
    list_item "segments" result = Some [] /\
    str_item "language" result = Some "ur" /\
    float_item "duration" result = Some 3.25%float /\
    fst (run Demo.float_repr Demo.silent_lib
           ["transcribe-local.py"; "naat.mp3"]) = Return tt.
Proof.
  destruct (C10_empty_sequence_gives_empty_text_and_segments Demo.float_repr
              Demo.silent_lib "transcribe-local.py" "naat.mp3" []
              (Demo.info "ur"))
    as (result & Hret & Htext & Hseg & Hlang & Hdur & Hrun & _).
  - apply (returns_intro Demo.silent_lib _ _ _ _ tt StopIteration); reflexivity.
  - exists result. repeat split; assumption.
Defined.

(** * Further properties of the script *)

(** ** Vocabulary *)

(** Every character of a string satisfies [p]. *)
Fixpoint all_chars (p : ascii -> bool) (s : string) : bool :=
  match s with
  | EmptyString => true
  | String c rest => p c && all_chars p rest
  end.

(** A character that can sit inside a JSON string as it is: not a control
    character. *)
Definition printable (c : ascii) : bool := Nat.leb 32 (nat_of_ascii c).

(** A character the [ESCAPE] pattern does not match. *)
Definition unmatched (c : ascii) : bool :=
  Nat.leb 32 (nat_of_ascii c)
  && negb (Nat.eqb (nat_of_ascii c) 34)
  && negb (Nat.eqb (nat_of_ascii c) 92).

(** Reading the escape sequences of [escape_char] back; used to show that
    escaping loses nothing. *)
Definition hex_value (c : ascii) : option nat :=
  let n := nat_of_ascii c in
  if Nat.leb 48 n && Nat.leb n 57 then Some (n - 48)
  else if Nat.leb 97 n && Nat.leb n 102 then Some (n - 87)
  else None.

Definition prepend (n : nat) (r : option string) : option string :=
  match r with
  | Some s => Some (String (ascii_of_nat n) s)
  | None => None
  end.

Fixpoint unescape (s : string) : option string :=
  match s with
  | EmptyString => Some EmptyString
  | String c rest =>
      if Nat.eqb (nat_of_ascii c) 92 then
        match rest with
        | EmptyString => None
        | String e rest' =>
            let k := nat_of_ascii e in
            if Nat.eqb k 92 then prepend 92 (unescape rest')
            else if Nat.eqb k 34 then prepend 34 (unescape rest')
            else if Nat.eqb k 98 then prepend 8 (unescape rest')
            else if Nat.eqb k 102 then prepend 12 (unescape rest')
            else if Nat.eqb k 110 then prepend 10 (unescape rest')
            else if Nat.eqb k 114 then prepend 13 (unescape rest')
            else if Nat.eqb k 116 then prepend 9 (unescape rest')
            else if Nat.eqb k 117 then
              match rest' with
              | String _ (String _ (String h (String l rest''))) =>
                  match hex_value h, hex_value l with
                  | Some x, Some y => prepend (16 * x + y) (unescape rest'')
                  | _, _ => None
                  end
              | _ => None
              end
            else None
        end
      else prepend (nat_of_ascii c) (unescape rest)
  end.

Module Demo2.

(** A library whose transcription call fails at once. *)
Definition refusing_lib : library :=
  mkLibrary unit
    (fun _ _ _ => Ok tt)
    (fun _ _ _ _ _ => Raised (mkException "corrupt audio")).

(** A library whose model cannot be built. *)
Definition unloadable_lib : library :=
  mkLibrary unit
    (fun _ _ _ => Raised (mkException "out of memory"))
    (fun _ _ language _ _ => Ok (StopIteration, Demo.info language)).

(** A library that reports a language of its own. *)
Definition hindi_lib : library :=
  mkLibrary unit
    (fun _ _ _ => Ok tt)
    (fun _ _ _ _ _ => Ok (generator_of [Demo.seg1; Demo.seg2], Demo.info "hi")).

End Demo2.

(** ** Strings *)

Lemma all_chars_append (p : ascii -> bool) (a b : string) :
  all_chars p (a ++ b) = all_chars p a && all_chars p b.
Proof.
  induction a as [| c a IH]; simpl; [reflexivity |].
  now rewrite IH, andb_assoc.
Qed.

Lemma escape_char_printable (c : ascii) :
  all_chars printable (escape_char c) = true.
Proof. destruct c as [[] [] [] [] [] [] [] []]; reflexivity. Qed.

Lemma escape_printable (s : string) : all_chars printable (escape s) = true.
Proof.
  induction s as [| c s IH]; simpl; [reflexivity |].
  now rewrite all_chars_append, escape_char_printable, IH.
Qed.

Lemma unescape_escape (s : string) : unescape (escape s) = Some s.
Proof.
  induction s as [| c s IH]; [reflexivity |].
  destruct c as [[] [] [] [] [] [] [] []];
    cbn [escape]; simpl; rewrite IH; reflexivity.
Qed.

Lemma join_app (sep : string) (l1 l2 : list string) :
  l1 <> [] -> l2 <> [] ->
  join sep (l1 ++ l2) = (join sep l1 ++ sep ++ join sep l2)%string.
Proof.
  intros H1 H2. induction l1 as [| x l1 IH]; [congruence |].
  destruct l1 as [| y l1].
  - destruct l2 as [| z l2]; [congruence | reflexivity].
  - change ((x :: y :: l1) ++ l2) with (x :: y :: (l1 ++ l2)).
    rewrite !join_cons.
    change (y :: l1 ++ l2) with ((y :: l1) ++ l2).
    rewrite IH by discriminate.
    now rewrite !append_assoc.
Qed.

(** ** The string encoder *)

(** X8. The encoded form of any string holds no control character: a string
    value never breaks the line structure of the printed document. *)
Theorem encode_basestring_has_no_control_character (s : string) :
  all_chars printable (encode_basestring s) = true.
Proof.
  unfold encode_basestring. cbn [all_chars].
  rewrite all_chars_append, escape_printable. reflexivity.
Qed.

(** X9. Escaping loses nothing: two strings with the same encoded form are
    the same string. *)
Theorem encode_basestring_injective (s1 s2 : string) :
  encode_basestring s1 = encode_basestring s2 -> s1 = s2.
Proof.
  unfold encode_basestring. intros H. injection H as H.
  assert (Hlen : forall a b : string,
             (a ++ String dquote EmptyString)%string
             = (b ++ String dquote EmptyString)%string -> a = b).
  { induction a as [| x a IH]; intros [| y b] Hab; simpl in Hab.
    - reflexivity.
    - injection Hab as _ Hab. destruct b; discriminate.
    - injection Hab as _ Hab. destruct a; discriminate.
    - injection Hab as -> Hab. f_equal. now apply IH. }
  apply Hlen in H.
  assert (Hu : unescape (escape s1) = unescape (escape s2)) by now rewrite H.
  rewrite !unescape_escape in Hu. now injection Hu.
Qed.

(** X10. A string without control characters, double quotes and backslashes
    (any UTF-8 text of letters, digits, spaces and non-ASCII characters) is
    printed as it is between two double quotes. *)
Theorem encode_basestring_plain_text_verbatim (s : string) :
  all_chars unmatched s = true ->
  encode_basestring s = String dquote (s ++ String dquote EmptyString).
Proof.
  intros H. unfold encode_basestring. do 2 f_equal.
  induction s as [| c s IH]; [reflexivity |].
  cbn [all_chars] in H. apply andb_true_iff in H as [Hc Hs].
  unfold unmatched in Hc.
  apply andb_true_iff in Hc as [Hc Hb]. apply andb_true_iff in Hc as [Hlo Hq].
  apply Nat.leb_le in Hlo.
  apply negb_true_iff, Nat.eqb_neq in Hq, Hb.
  cbn [escape]. rewrite (escape_char_unmatched c Hlo Hq Hb), (IH Hs).
  reflexivity.
Qed.

Section MoreDriverFacts.

Variable float_repr : float -> string.
Variable lib : library.

(** ** Outcomes of the process *)

(** X1. Whatever the command line and whatever the library does, a run ends
    in one of two ways: normally, with something on standard output, or
    through [sys.exit(1)], with nothing on standard output.  No exception
    (an index out of range included) reaches the top level. *)
Theorem run_prints_document_or_exits_1 (argv : list string) :
  (fst (run float_repr lib argv) = Return tt /\
   stdout (snd (run float_repr lib argv)) <> EmptyString)
  \/
  (fst (run float_repr lib argv) = SystemExit 1 /\
   stdout (snd (run float_repr lib argv)) = EmptyString).
Proof.
  destruct argv as [| prog [| audio_file rest]]; try (now right).
  rewrite run_cases. cbv zeta.
  destruct (WhisperModel lib "large-v3" "cpu" "int8") as [m | e];
    [| now right].
  destruct (transcribe lib m audio_file (hd "ur" rest) 5 false)
    as [[g info] | e]; [| now right].
  destruct (consume g) as [segments | e]; [left | now right].
  split; [reflexivity |].
  cbn [snd stdout]. rewrite json_dumps_result_dict. discriminate.
Qed.

(** X2. A run depends on the command line only through the audio path and
    the language: the program name and every entry after the language are
    ignored, and leaving the language out is the same as passing ["ur"]. *)
Theorem run_depends_on_audio_and_language_only
    (prog prog' audio_file : string) (rest rest' : list string) :
  hd "ur" rest = hd "ur" rest' ->
  run float_repr lib (prog :: audio_file :: rest) =
  run float_repr lib (prog' :: audio_file :: rest').
Proof.
  intros H. rewrite !run_cases. cbv zeta. now rewrite H.
Qed.

(** X3. A language given on the command line reaches the transcription call
    as it is (an empty string included): once the model is built the
    library sees exactly one model construction followed by exactly one
    transcription call, on the given audio path and language. *)
Theorem explicit_language_reaches_transcribe
    (prog audio_file language : string) (extra : list string)
    (m : model lib) :
  WhisperModel lib "large-v3" "cpu" "int8" = Ok m ->
  calls (snd (run float_repr lib (prog :: audio_file :: language :: extra))) =
  [Call_WhisperModel "large-v3" "cpu" "int8";
   Call_transcribe audio_file language 5 false].
Proof.
  intros Hm. rewrite run_calls, Hm. reflexivity.
Qed.

(** X4. When the model cannot be built, the script stops there: the
    transcription is never requested, the second progress line is never
    printed, and the run ends with the first progress line and the error
    line on the diagnostic stream. *)
Theorem model_failure_stops_before_transcription
    (prog audio_file : string) (rest : list string) (e : Exception) :
  WhisperModel lib "large-v3" "cpu" "int8" = Raised e ->
  run float_repr lib (prog :: audio_file :: rest) =
  (SystemExit 1,
   mkWorld EmptyString (loading_line ++ error_line e)
           [Call_WhisperModel "large-v3" "cpu" "int8"]).
Proof.
  intros Hm. rewrite run_cases. cbv zeta. now rewrite Hm.
Qed.

(** ** The returned object *)

(** X6. When the library succeeds, the language and duration entries of the
    returned object are those of the library's summary, whatever language
    was requested, and the object has no entry under any key other than
    language, duration, text and segments. *)
Theorem result_reports_library_summary
    (audio_path language : string) (segments : list Segment.t)
    (info : Info.t) (w : world) :
  library_returns lib audio_path language segments info ->
  exists result : pyobj,
    fst (transcribe_audio lib audio_path (Some language) w) = Return result /\
    str_item "language" result = Some (Info.language info) /\
    float_item "duration" result = Some (Info.duration info) /\
    forall key : string,
      ~ In key ["language"; "duration"; "text"; "segments"] ->
      getitem key result = None.
Proof.
  intros H. exists (result_dict info segments).
  rewrite (transcribe_audio_returns lib _ _ _ _ w H).
  split; [reflexivity | split; [reflexivity | split; [reflexivity |]]].
  intros key Hkey. cbn [result_dict getitem dict_get].
  repeat match goal with
         | |- context [String.eqb ?k key] =>
             destruct (String.eqb_spec k key) as [Heq | _];
             [exfalso; apply Hkey; rewrite <- Heq; simpl; tauto |]
         end.
  reflexivity.
Qed.

(** X7. The transcript composes: when the library's segments are one
    non-empty run followed by another, the text entry is the transcript of
    the first run, one space, and the transcript of the second. *)
Theorem text_of_consecutive_runs
    (audio_path language : string) (first second : list Segment.t)
    (info : Info.t) (w : world) :
  first <> [] -> second <> [] ->
  library_returns lib audio_path language (first ++ second) info ->
  exists result : pyobj,
    fst (transcribe_audio lib audio_path (Some language) w) = Return result /\
    str_item "text" result =
    Some (join " " (map Segment.text first) ++ " "
          ++ join " " (map Segment.text second))%string.
Proof.
  intros H1 H2 H. exists (result_dict info (first ++ second)).
  rewrite (transcribe_audio_returns lib _ _ _ _ w H).
  split; [reflexivity |].
  unfold str_item. cbn [result_dict getitem dict_get String.eqb Ascii.eqb
                        Bool.eqb].
  rewrite map_app, join_app; [reflexivity | |];
    intros Hnil; apply map_eq_nil in Hnil; contradiction.
Qed.

End MoreDriverFacts.

(** X5. Segments decoded before a failure leave no trace: a run whose
    segment sequence raises part-way ends in the same state as a run whose
    transcription call raises the same exception at once. *)
Theorem decoding_failure_leaves_no_trace
    (float_repr : float -> string) (lib1 lib2 : library)
    (prog audio_file : string) (rest : list string)
    (m1 : model lib1) (m2 : model lib2) (g : generator) (info : Info.t)
    (e : Exception) :
  WhisperModel lib1 "large-v3" "cpu" "int8" = Ok m1 ->
  transcribe lib1 m1 audio_file (hd "ur" rest) 5 false = Ok (g, info) ->
  consume g = Raised e ->
  WhisperModel lib2 "large-v3" "cpu" "int8" = Ok m2 ->
  transcribe lib2 m2 audio_file (hd "ur" rest) 5 false = Raised e ->
  run float_repr lib1 (prog :: audio_file :: rest) =
  run float_repr lib2 (prog :: audio_file :: rest).
Proof.
  intros Hm1 Ht1 Hg Hm2 Ht2. rewrite !run_cases. cbv zeta.
  now rewrite Hm1, Ht1, Hg, Hm2, Ht2.
Qed.

(** ** The further properties on concrete command lines *)

Lemma X2_witness :
  run Demo.float_repr Demo.lib ["transcribe-local.py"; "naat.mp3"] =
  run Demo.float_repr Demo.lib ["python"; "naat.mp3"; "ur"; "ignored"].
Proof.
  apply (run_depends_on_audio_and_language_only Demo.float_repr Demo.lib
           "transcribe-local.py" "python" "naat.mp3" [] ["ur"; "ignored"]).
  reflexivity.
Defined.

Lemma X3_witness :
  calls (snd (run Demo.float_repr Demo.lib
                ["transcribe-local.py"; "naat.mp3"; "en"])) =
  [Call_WhisperModel "large-v3" "cpu" "int8";
   Call_transcribe "naat.mp3" "en" 5 false].
Proof.
  apply (explicit_language_reaches_transcribe Demo.float_repr Demo.lib
           "transcribe-local.py" "naat.mp3" "en" [] tt).
  reflexivity.
Defined.

Lemma X4_witness :
  run Demo.float_repr Demo2.unloadable_lib ["transcribe-local.py"; "naat.mp3"] =
  (SystemExit 1,
   mkWorld EmptyString
           (loading_line ++ error_line (mkException "out of memory"))
           [Call_WhisperModel "large-v3" "cpu" "int8"]).
Proof.
  apply (model_failure_stops_before_transcription Demo.float_repr
           Demo2.unloadable_lib "transcribe-local.py" "naat.mp3" []
           (mkException "out of memory")).
  reflexivity.
Defined.

Lemma X5_witness :
  run Demo.float_repr Demo.failing_lib ["transcribe-local.py"; "naat.mp3"] =
  run Demo.float_repr Demo2.refusing_lib ["transcribe-local.py"; "naat.mp3"].
Proof.
  apply (decoding_failure_leaves_no_trace Demo.float_repr
           Demo.failing_lib Demo2.refusing_lib
           "transcribe-local.py" "naat.mp3" [] tt tt
           (Yield Demo.seg1 (GenRaise (mkException "corrupt audio")))
           (Demo.info "ur") (mkException "corrupt audio"));
    reflexivity.
Defined.

Lemma X6_witness :
  exists result : pyobj,
    fst (transcribe_audio Demo2.hindi_lib "naat.mp3" (Some "ur") initial_world)
      = Return result /\
    str_item "language" result = Some "hi" /\
    getitem "words" result = None.
Proof.
  destruct (result_reports_library_summary Demo2.hindi_lib "naat.mp3" "ur"
              [Demo.seg1; Demo.seg2] (Demo.info "hi") initial_world)
    as (result & Hret & Hlang & _ & Hother).
  - apply (returns_intro Demo2.hindi_lib _ _ _ _ tt
             (generator_of [Demo.seg1; Demo.seg2])); reflexivity.
  - exists result. split; [exact Hret | split; [exact Hlang |]].
    apply Hother. simpl. intros [H | [H | [H | [H | []]]]]; discriminate.
Defined.

Lemma X7_witness :
  exists result : pyobj,
    fst (transcribe_audio Demo.lib "naat.mp3" (Some "ur") initial_world)
      = Return result /\
    str_item "text" result = Some " salaam  dunya ".
Proof.
  apply (text_of_consecutive_runs Demo.lib "naat.mp3" "ur"
           [Demo.seg1] [Demo.seg2] (Demo.info "ur") initial_world).
  - discriminate.
  - discriminate.
  - apply (returns_intro Demo.lib _ _ _ _ tt
             (generator_of [Demo.seg1; Demo.seg2])); reflexivity.
Defined.

Lemma X9_witness : " dunya " = " dunya ".
Proof.
  apply (encode_basestring_injective " dunya " " dunya "). reflexivity.
Defined.

(** The two bytes are the UTF-8 form of the letter alef. *)
Lemma X10_witness :
  encode_basestring
    (String (ascii_of_nat 216) (String (ascii_of_nat 167) " dunya")) =
  String dquote
    (String (ascii_of_nat 216) (String (ascii_of_nat 167) " dunya")
     ++ String dquote EmptyString).
Proof.
  apply (encode_basestring_plain_text_verbatim
           (String (ascii_of_nat 216) (String (ascii_of_nat 167) " dunya"))).
  reflexivity.
Defined.


(** * The printed document as a JSON text *)

(** ** JSON texts, after the grammar of RFC 8259 *)

(** Insignificant whitespace: space, horizontal tab, line feed, carriage
    return. *)
Definition is_ws (c : ascii) : bool :=
  let n := nat_of_ascii c in
  Nat.eqb n 32 || Nat.eqb n 9 || Nat.eqb n 10 || Nat.eqb n 13.

Definition ws (s : string) : bool := all_chars is_ws s.

Definition is_digit (c : ascii) : bool :=
  Nat.leb 48 (nat_of_ascii c) && Nat.leb (nat_of_ascii c) 57.

(** The character a two-character escape stands for. *)
Definition simple_escape (e : ascii) : option ascii :=
  let k := nat_of_ascii e in
  if Nat.eqb k 34 then Some (ascii_of_nat 34)
  else if Nat.eqb k 92 then Some (ascii_of_nat 92)
  else if Nat.eqb k 47 then Some (ascii_of_nat 47)
  else if Nat.eqb k 98 then Some (ascii_of_nat 8)
  else if Nat.eqb k 102 then Some (ascii_of_nat 12)
  else if Nat.eqb k 110 then Some (ascii_of_nat 10)
  else if Nat.eqb k 114 then Some (ascii_of_nat 13)
  else if Nat.eqb k 116 then Some (ascii_of_nat 9)
  else None.

(** A hexadecimal digit, in either case. *)
Definition hex_digit_value (c : ascii) : option nat :=
  let n := nat_of_ascii c in
  if is_digit c then Some (n - 48)
  else if Nat.leb 97 n && Nat.leb n 102 then Some (n - 87)
  else if Nat.leb 65 n && Nat.leb n 70 then Some (n - 55)
  else None.

(** The code point written by the four hexadecimal digits of a [\u]
    escape. *)
Definition hex4 (h1 h2 h3 h4 : ascii) : option nat :=
  match hex_digit_value h1, hex_digit_value h2,
        hex_digit_value h3, hex_digit_value h4 with
  | Some a, Some b, Some c, Some d => Some (((a * 16 + b) * 16 + c) * 16 + d)
  | _, _, _, _ => None
  end.

(** [json_chars body text]: [body], the inside of a string literal, is a
    sequence of unescaped characters and escapes that denotes [text].  A
    [\u] escape is read when it names an ASCII code point, whose UTF-8
    form is the one byte. *)
Inductive json_chars : string -> string -> Prop :=
| chars_end : json_chars EmptyString EmptyString
| chars_unescaped (c : ascii) (body text : string) :
    unmatched c = true ->
    json_chars body text ->
    json_chars (String c body) (String c text)
| chars_escape (e c : ascii) (body text : string) :
    simple_escape e = Some c ->
    json_chars body text ->
    json_chars (String "\"%char (String e body)) (String c text)
| chars_unicode (h1 h2 h3 h4 : ascii) (n : nat) (body text : string) :
    hex4 h1 h2 h3 h4 = Some n ->
    n < 128 ->
    json_chars body text ->
    json_chars (String "\"%char (String "u"%char
                  (String h1 (String h2 (String h3 (String h4 body))))))
               (String (ascii_of_nat n) text).

(** Numbers: an optional minus sign; a zero, or a non-zero digit followed
    by digits; optionally a point and one or more digits; optionally an
    exponent mark, an optional sign and one or more digits. *)
Fixpoint skip_digits (s : string) : string :=
  match s with
  | String c rest => if is_digit c then skip_digits rest else s
  | EmptyString => EmptyString
  end.

Definition digits1 (s : string) : option string :=
  match s with
  | String c rest => if is_digit c then Some (skip_digits rest) else None
  | EmptyString => None
  end.

Definition number_int (s : string) : option string :=
  match s with
  | String c rest =>
      if Nat.eqb (nat_of_ascii c) 48 then Some rest
      else if is_digit c then Some (skip_digits rest)
      else None
  | EmptyString => None
  end.

Definition number_frac (s : string) : option string :=
  match s with
  | String c rest => if Nat.eqb (nat_of_ascii c) 46 then digits1 rest else Some s
  | EmptyString => Some s
  end.

Definition number_exp (s : string) : option string :=
  match s with
  | String c rest =>
      if Nat.eqb (nat_of_ascii c) 101 || Nat.eqb (nat_of_ascii c) 69 then
        match rest with
        | String sign rest' =>
            if Nat.eqb (nat_of_ascii sign) 43 || Nat.eqb (nat_of_ascii sign) 45
            then digits1 rest'
            else digits1 rest
        | EmptyString => None
        end
      else Some s
  | EmptyString => Some s
  end.

Definition is_json_number (s : string) : bool :=
  let unsigned :=
    match s with
    | String c rest => if Nat.eqb (nat_of_ascii c) 45 then rest else s
    | EmptyString => s
    end in
  match number_int unsigned with
  | Some r1 =>
      match number_frac r1 with
      | Some r2 =>
          match number_exp r2 with
          | Some EmptyString => true
          | _ => false
          end
      | None => false
      end
  | None => false
  end.

(** [math.isfinite]: neither a NaN nor an infinity. *)
Definition isfinite (f : float) : bool :=
  PrimFloat.eqb f f
  && negb (PrimFloat.eqb f infinity)
  && negb (PrimFloat.eqb f neg_infinity).

Section JsonGrammar.

(** The decimal notation of floats: [float.__repr__]. *)
Variable float_repr : float -> string.

(** [json_value s v]: the text [s] is a JSON value that denotes [v].
    An integer is a decimal numeral without sign [+] and without leading
    zeros; a float is written in its decimal notation, which has to be a
    JSON number; arrays and objects separate their entries by commas, with
    whitespace allowed around every entry, key and colon. *)
Inductive json_value : string -> pyobj -> Prop :=
| json_string (body text : string) :
    json_chars body text ->
    json_value (String dquote (body ++ String dquote EmptyString))
               (PyStr text)
| json_int (tok : string) (d : Decimal.int) (z : Z) :
    NilZero.int_of_string tok = Some d ->
    Decimal.norm d = d ->
    Z.of_int d = z ->
    json_value tok (PyInt z)
| json_float (f : float) :
    is_json_number (float_repr f) = true ->
    json_value (float_repr f) (PyFloat f)
| json_array_empty (w : string) :
    ws w = true ->
    json_value ("[" ++ w ++ "]") (PyList [])
| json_array (elements : string) (items : list pyobj) :
    json_elements elements items ->
    json_value ("[" ++ elements ++ "]") (PyList items)
| json_object_empty (w : string) :
    ws w = true ->
    json_value ("{" ++ w ++ "}") (PyDict [])
| json_object (members : string) (items : list (string * pyobj)) :
    json_members members items ->
    json_value ("{" ++ members ++ "}") (PyDict items)
with json_elements : string -> list pyobj -> Prop :=
| elements_last (w1 s w2 : string) (v : pyobj) :
    ws w1 = true -> json_value s v -> ws w2 = true ->
    json_elements (w1 ++ s ++ w2) [v]
| elements_more (w1 s w2 rest : string) (v : pyobj) (items : list pyobj) :
    ws w1 = true -> json_value s v -> ws w2 = true ->
    json_elements rest items ->
    json_elements (w1 ++ s ++ w2 ++ "," ++ rest) (v :: items)
with json_members : string -> list (string * pyobj) -> Prop :=
| members_last (w1 k w2 w3 s w4 key : string) (v : pyobj) :
    ws w1 = true -> json_chars k key -> ws w2 = true ->
    ws w3 = true -> json_value s v -> ws w4 = true ->
    json_members (w1 ++ String dquote (k ++ String dquote EmptyString)
                  ++ w2 ++ ":" ++ w3 ++ s ++ w4)
                 [(key, v)]
| members_more (w1 k w2 w3 s w4 key rest : string) (v : pyobj)
    (items : list (string * pyobj)) :
    ws w1 = true -> json_chars k key -> ws w2 = true ->
    ws w3 = true -> json_value s v -> ws w4 = true ->
    json_members rest items ->
    json_members (w1 ++ String dquote (k ++ String dquote EmptyString)
                  ++ w2 ++ ":" ++ w3 ++ s ++ w4 ++ "," ++ rest)
                 ((key, v) :: items).

(** A JSON text: one value, with whitespace allowed before and after. *)
Inductive json_text : string -> pyobj -> Prop :=
| json_text_intro (w1 s w2 : string) (v : pyobj) :
    ws w1 = true -> json_value s v -> ws w2 = true ->
    json_text (w1 ++ s ++ w2) v.

(** A float that has a JSON notation: finite, and written as a JSON
    number. *)
Definition float_ok (f : float) : Prop :=
  isfinite f = true /\ is_json_number (float_repr f) = true.

(** Every float inside an object has a JSON notation. *)
Fixpoint floats_ok (v : pyobj) : Prop :=
  match v with
  | PyFloat f => float_ok f
  | PyList items => fold_right (fun x acc => floats_ok x /\ acc) True items
  | PyDict items =>
      fold_right (fun kv acc => floats_ok (snd kv) /\ acc) True items
  | _ => True
  end.

End JsonGrammar.

(** ** The leaves of the encoder are JSON *)

Lemma ws_append (a b : string) : ws (a ++ b) = ws a && ws b.
Proof. apply all_chars_append. Qed.

Lemma ws_repeat_space (n : nat) : ws (repeat_char " " n) = true.
Proof. induction n as [| n IH]; [reflexivity | exact IH]. Qed.

(** Every line break and indentation the encoder writes is whitespace. *)
Lemma ws_newline_indent (indent level : nat) :
  ws (newline_indent indent level) = true.
Proof.
  unfold newline_indent. rewrite ws_append, ws_repeat_space. reflexivity.
Qed.

(** One character, escaped, read back by the grammar of string literals. *)
Lemma json_chars_escape_char (c : ascii) (body text : string) :
  json_chars body text ->
  json_chars (escape_char c ++ body) (String c text).
Proof.
  intros H.
  destruct c as [[] [] [] [] [] [] [] []];
    match goal with
    | |- context [escape_char ?c] =>
        let e := eval vm_compute in (escape_char c) in
        change (escape_char c) with e
    end; cbn [append];
    first
      [ apply chars_unescaped; [reflexivity | exact H]
      | apply chars_escape; [reflexivity | exact H]
      | match goal with
        | |- json_chars
               (String _ (String _ (String ?h1 (String ?h2
                  (String ?h3 (String ?h4 _))))))
               (String ?c _) =>
            let n := eval cbv in (nat_of_ascii c) in
            change c with (ascii_of_nat n);
            apply (chars_unicode h1 h2 h3 h4 n); [reflexivity | lia | exact H]
        end ].
Qed.

Lemma json_chars_escape (s : string) : json_chars (escape s) s.
Proof.
  induction s as [| c s IH]; cbn [escape].
  - constructor.
  - now apply json_chars_escape_char.
Qed.

Section Leaves.

Variable float_repr : float -> string.

Lemma json_value_encode_basestring (s : string) :
  json_value float_repr (encode_basestring s) (PyStr s).
Proof. apply json_string, json_chars_escape. Qed.

(** [int.__repr__] writes the canonical decimal numeral of the integer. *)
Lemma json_value_int_repr (z : Z) :
  json_value float_repr (int_repr z) (PyInt z).
Proof.
  apply (json_int float_repr _ (Z.to_int z)).
  - unfold int_repr. apply NilZero.isi.
    + destruct z; simpl; try discriminate.
      intros [= H]. now apply (DecimalPos.Unsigned.to_uint_nonnil p).
    + destruct z; simpl; try discriminate.
      intros [= H]. now apply (DecimalPos.Unsigned.to_uint_nonnil p).
  - rewrite <- (DecimalZ.to_of (Z.to_int z)), DecimalZ.of_to. reflexivity.
  - apply DecimalZ.of_to.
Qed.

(** A finite float is written by [float.__repr__]. *)
Lemma floatstr_finite (f : float) :
  isfinite f = true -> floatstr float_repr f = float_repr f.
Proof.
  unfold isfinite, floatstr. intros H.
  apply andb_true_iff in H as [H Hneg]. apply andb_true_iff in H as [Hnan Hinf].
  rewrite Hnan. cbn [negb].
  apply negb_true_iff in Hinf, Hneg. now rewrite Hinf, Hneg.
Qed.

Lemma json_value_floatstr (f : float) :
  float_ok float_repr f ->
  json_value float_repr (floatstr float_repr f) (PyFloat f).
Proof.
  intros [Hfin Hnum]. rewrite (floatstr_finite f Hfin).
  now apply json_float.
Qed.

End Leaves.

(** ** The encoder writes JSON *)

(** Induction on objects, through the lists of arrays and dicts. *)
Lemma pyobj_induction (P : pyobj -> Prop) :
  (forall z, P (PyInt z)) ->
  (forall f, P (PyFloat f)) ->
  (forall s, P (PyStr s)) ->
  (forall items, Forall P items -> P (PyList items)) ->
  (forall items, Forall (fun kv => P (snd kv)) items -> P (PyDict items)) ->
  forall v, P v.
Proof.
  intros Hint Hfloat Hstr Hlist Hdict.
  fix IH 1. intros [z | f | s | items | items].
  - apply Hint.
  - apply Hfloat.
  - apply Hstr.
  - apply Hlist. induction items as [| x xs IHxs]; constructor.
    + apply IH.
    + exact IHxs.
  - apply Hdict. induction items as [| [k x] xs IHxs]; constructor.
    + apply IH.
    + exact IHxs.
Qed.

(** The text of one entry of a dict: key, colon, space, value. *)
Definition member_text (enc : pyobj -> string) (kv : string * pyobj) : string :=
  let '(key, value) := kv in
  (encode_basestring key ++ ": " ++ enc value)%string.

Section EncoderWritesJson.

Variable float_repr : float -> string.

(** The entries of an array, each on its own line after the separator. *)
Lemma json_elements_join (enc : pyobj -> string) (w1 w2 : string)
    (items : list pyobj) :
  items <> [] -> ws w1 = true -> ws w2 = true ->
  Forall (fun v => json_value float_repr (enc v) v) items ->
  json_elements float_repr (w1 ++ join ("," ++ w1) (map enc items) ++ w2) items.
Proof.
  intros Hne Hw1 Hw2 Hall.
  induction items as [| x xs IH]; [congruence |].
  inversion Hall as [| ? ? Hx Hxs]; subst.
  destruct xs as [| y ys].
  - apply elements_last; assumption.
  - cbn [map]. rewrite join_cons.
    replace (w1 ++ (enc x ++ ("," ++ w1) ++ join ("," ++ w1) (enc y :: map enc ys))
             ++ w2)%string
      with (w1 ++ enc x ++ EmptyString ++ ","
            ++ (w1 ++ join ("," ++ w1) (map enc (y :: ys)) ++ w2))%string
      by (cbn [map]; now string_normal).
    apply elements_more; try assumption; [reflexivity |].
    apply IH; [discriminate | assumption].
Qed.

(** The entries of an object, likewise. *)
Lemma json_members_join (enc : pyobj -> string) (w1 w2 : string)
    (items : list (string * pyobj)) :
  items <> [] -> ws w1 = true -> ws w2 = true ->
  Forall (fun kv => json_value float_repr (enc (snd kv)) (snd kv)) items ->
  json_members float_repr
    (w1 ++ join ("," ++ w1) (map (member_text enc) items) ++ w2) items.
Proof.
  intros Hne Hw1 Hw2 Hall.
  induction items as [| [k x] xs IH]; [congruence |].
  inversion Hall as [| ? ? Hx Hxs]; subst. cbn [snd] in Hx.
  destruct xs as [| [k' y] ys].
  - cbn [map join member_text].
    replace (w1 ++ (encode_basestring k ++ ": " ++ enc x) ++ w2)%string
      with (w1 ++ String dquote (escape k ++ String dquote EmptyString)
            ++ EmptyString ++ ":" ++ " " ++ enc x ++ w2)%string
      by (unfold encode_basestring; now string_normal).
    apply members_last; try assumption; try reflexivity.
    apply json_chars_escape.
  - remember ((k', y) :: ys) as tail eqn:Htail.
    cbn [map]. rewrite Htail at 1. cbn [map]. rewrite join_cons.
    replace (member_text enc (k', y) :: map (member_text enc) ys)
      with (map (member_text enc) tail) by now rewrite Htail.
    cbn [member_text].
    replace (w1 ++ ((encode_basestring k ++ ": " ++ enc x) ++ ("," ++ w1)
                    ++ join ("," ++ w1) (map (member_text enc) tail))
             ++ w2)%string
      with (w1 ++ String dquote (escape k ++ String dquote EmptyString)
            ++ EmptyString ++ ":" ++ " " ++ enc x ++ EmptyString ++ ","
            ++ (w1 ++ join ("," ++ w1) (map (member_text enc) tail) ++ w2))%string
      by (unfold encode_basestring; now string_normal).
    apply members_more; try assumption; try reflexivity.
    + apply json_chars_escape.
    + apply IH; [subst tail; discriminate | assumption].
Qed.

(** Whatever the object, the indentation and the nesting level, the text
    [json.dumps] writes is a JSON value that denotes the object, provided
    the floats in it have a JSON notation. *)
Lemma json_value_iterencode (indent : nat) (v : pyobj) :
  forall level : nat,
    floats_ok float_repr v ->
    json_value float_repr (iterencode float_repr indent v level) v.
Proof.
  induction v as [z | f | s | items IH | items IH] using pyobj_induction;
    intros level Hok.
  - apply json_value_int_repr.
  - now apply json_value_floatstr.
  - apply json_value_encode_basestring.
  - destruct items as [| x xs].
    + apply (json_array_empty float_repr EmptyString). reflexivity.
    + change (iterencode float_repr indent (PyList (x :: xs)) level)
        with ("[" ++ newline_indent indent (S level)
              ++ join ("," ++ newline_indent indent (S level))
                   (map (fun value => iterencode float_repr indent value (S level))
                        (x :: xs))
              ++ newline_indent indent level ++ "]")%string.
      replace ("[" ++ newline_indent indent (S level)
               ++ join ("," ++ newline_indent indent (S level))
                    (map (fun value => iterencode float_repr indent value (S level))
                         (x :: xs))
               ++ newline_indent indent level ++ "]")%string
        with ("[" ++ (newline_indent indent (S level)
                      ++ join ("," ++ newline_indent indent (S level))
                           (map (fun value =>
                                   iterencode float_repr indent value (S level))
                                (x :: xs))
                      ++ newline_indent indent level) ++ "]")%string
        by (now rewrite !append_assoc).
      apply json_array, json_elements_join;
        [discriminate | apply ws_newline_indent | apply ws_newline_indent |].
      clear - IH Hok. cbn [floats_ok] in Hok.
      induction IH as [| y ys Hy _ IHys]; constructor.
      * apply Hy. apply Hok.
      * apply IHys. apply Hok.
  - destruct items as [| [k x] xs].
    + apply (json_object_empty float_repr EmptyString). reflexivity.
    + change (iterencode float_repr indent (PyDict ((k, x) :: xs)) level)
        with ("{" ++ newline_indent indent (S level)
              ++ join ("," ++ newline_indent indent (S level))
                   (map (member_text
                           (fun value =>
                              iterencode float_repr indent value (S level)))
                        ((k, x) :: xs))
              ++ newline_indent indent level ++ "}")%string.
      replace ("{" ++ newline_indent indent (S level)
               ++ join ("," ++ newline_indent indent (S level))
                    (map (member_text
                            (fun value =>
                               iterencode float_repr indent value (S level)))
                         ((k, x) :: xs))
               ++ newline_indent indent level ++ "}")%string
        with ("{" ++ (newline_indent indent (S level)
                      ++ join ("," ++ newline_indent indent (S level))
                           (map (member_text
                                   (fun value =>
                                      iterencode float_repr indent value
                                        (S level)))
                                ((k, x) :: xs))
                      ++ newline_indent indent level) ++ "}")%string
        by (now rewrite !append_assoc).
      apply json_object, json_members_join;
        [discriminate | apply ws_newline_indent | apply ws_newline_indent |].
      clear - IH Hok. cbn [floats_ok] in Hok.
      induction IH as [| y ys Hy _ IHys]; constructor.
      * apply Hy. apply Hok.
      * apply IHys. apply Hok.
Qed.

(** What [print(json.dumps(obj, ensure_ascii=False, indent=n))] writes is
    one JSON text denoting [obj]. *)
Lemma json_text_json_dumps (obj : pyobj) (indent : nat) :
  floats_ok float_repr obj ->
  json_text float_repr (json_dumps float_repr obj indent ++ newline) obj.
Proof.
  intros Hok.
  apply (json_text_intro float_repr EmptyString
           (json_dumps float_repr obj indent) newline obj);
    [reflexivity | now apply json_value_iterencode | reflexivity].
Qed.

End EncoderWritesJson.

(** * The process under any encoding of standard output *)

Module Demo3.

(** A standard output that takes ASCII only (the C locale). *)
Definition ascii_only : encoding :=
  mkEncoding
    (all_chars (fun c => Nat.ltb (nat_of_ascii c) 128))
    (fun _ => mkException
                "'ascii' codec can't encode character: ordinal not in range(128)").

(** A segment whose text is the letter alef (two bytes in UTF-8). *)
Definition alef : Segment.t :=
  Segment.mk 0 0%float 1.5%float
    (String (ascii_of_nat 216) (String (ascii_of_nat 167) EmptyString)).

Definition urdu_lib : library :=
  mkLibrary unit
    (fun _ _ _ => Ok tt)
    (fun _ _ language _ _ => Ok (generator_of [alef], Demo.info language)).

End Demo3.

(** The floats of the returned object are the duration and the times of the
    segments. *)
Lemma floats_ok_result_dict (float_repr : float -> string) (info : Info.t)
    (segments : list Segment.t) :
  Forall (float_ok float_repr)
         (Info.duration info
          :: flat_map (fun s => [Segment.start s; Segment.end_ s]) segments) ->
  floats_ok float_repr (result_dict info segments).
Proof.
  intros H. inversion H as [| ? ? Hd Hs]; subst.
  cbn [result_dict floats_ok fold_right snd].
  split; [exact I | split; [exact Hd | split; [exact I | split; [| exact I]]]].
  clear - Hs. induction segments as [| s l IH]; [exact I |].
  cbn [flat_map app] in Hs.
  inversion Hs as [| ? ? Hstart Hs']; subst.
  inversion Hs' as [| ? ? Hend Hs'']; subst.
  cbn [map fold_right segment_dict floats_ok snd].
  split; [| now apply IH].
  split; [exact I | split; [exact Hstart | split; [exact Hend |]]].
  split; exact I.
Qed.

Section RunInFacts.

Variable stdout_encoding : encoding.
Variable float_repr : float -> string.
Variable lib : library.

(** The calls made on the library do not depend on standard output. *)
Lemma run_in_calls (argv : list string) :
  calls (snd (run_in stdout_encoding float_repr lib argv)) =
  match argv with
  | _ :: audio_file :: rest =>
      Call_WhisperModel "large-v3" "cpu" "int8"
      :: match WhisperModel lib "large-v3" "cpu" "int8" with
         | Ok _ => [Call_transcribe audio_file (hd "ur" rest) 5 false]
         | Raised _ => []
         end
  | _ => []
  end.
Proof.
  destruct argv as [| prog [| audio_file rest]]; try reflexivity.
  rewrite run_in_cases. cbv zeta.
  destruct (WhisperModel lib "large-v3" "cpu" "int8") as [m | e];
    [| reflexivity].
  destruct (transcribe lib m audio_file (hd "ur" rest) 5 false)
    as [[g info] | e]; [| reflexivity].
  destruct (consume g) as [segments | e]; [| reflexivity].
  destruct (accepts stdout_encoding
              (json_dumps float_repr (result_dict info segments) 2));
    reflexivity.
Qed.

(** When standard output cannot take the document, the failure of [print]
    is reported like a failure of the library: nothing on standard output,
    the error line after the two progress lines, status 1. *)
Lemma run_in_document_refused
    (prog audio_file : string) (rest : list string)
    (segments : list Segment.t) (info : Info.t) :
  library_returns lib audio_file (hd "ur" rest) segments info ->
  accepts stdout_encoding (document_layout float_repr info segments) = false ->
  run_in stdout_encoding float_repr lib (prog :: audio_file :: rest) =
  (SystemExit 1,
   mkWorld EmptyString
     ((loading_line ++ transcribing_line audio_file)
      ++ error_line (encode_error stdout_encoding
                       (document_layout float_repr info segments)))
     [Call_WhisperModel "large-v3" "cpu" "int8";
      Call_transcribe audio_file (hd "ur" rest) 5 false]).
Proof.
  intros [m g Hm Ht Hg] Hno. rewrite run_in_cases. cbv zeta.
  rewrite Hm, Ht, Hg, json_dumps_result_dict, Hno. reflexivity.
Qed.

(** C6. Under every encoding of standard output and whatever the
    library does: every model construction the process performs is
    [WhisperModel("large-v3", device="cpu", compute_type="int8")] and every
    transcription call has beam size 5 and word timestamps off; when the
    audio argument is present the model is constructed exactly once, first,
    and the transcription is called exactly once after it when the
    construction succeeds and not at all when it raises; when the audio
    argument is missing the library is not called. *)
Theorem C6_fixed_model_and_decoding_configuration (argv : list string) :
  (forall size device compute_type : string,
      In (Call_WhisperModel size device compute_type)
         (calls (snd (run_in stdout_encoding float_repr lib argv))) ->
      size = "large-v3" /\ device = "cpu" /\ compute_type = "int8") /\
  (forall (p l : string) (b : Z) (t : bool),
      In (Call_transcribe p l b t)
         (calls (snd (run_in stdout_encoding float_repr lib argv))) ->
      b = 5%Z /\ t = false) /\
  (forall (prog audio_file : string) (rest : list string),
      argv = prog :: audio_file :: rest ->
      calls (snd (run_in stdout_encoding float_repr lib argv)) =
      Call_WhisperModel "large-v3" "cpu" "int8"
      :: match WhisperModel lib "large-v3" "cpu" "int8" with
         | Ok _ => [Call_transcribe audio_file (hd "ur" rest) 5 false]
         | Raised _ => []
         end) /\
  (length argv < 2 ->
   calls (snd (run_in stdout_encoding float_repr lib argv)) = []).
Proof.
  rewrite run_in_calls.
  destruct argv as [| prog [| audio_file rest]].
  - repeat split; try (intros; simpl in *; tauto); intros; discriminate.
  - repeat split; try (intros; simpl in *; tauto); intros; discriminate.
  - split; [| split; [| split]].
    + intros ? ? ? [Heq | Hin]; [inversion Heq; auto |].
      destruct (WhisperModel lib "large-v3" "cpu" "int8"); [| destruct Hin].
      destruct Hin as [Heq | Hin]; [discriminate | destruct Hin].
    + intros ? ? ? ? [Heq | Hin]; [discriminate |].
      destruct (WhisperModel lib "large-v3" "cpu" "int8"); [| destruct Hin].
      destruct Hin as [Heq | Hin]; [inversion Heq; auto | destruct Hin].
    + intros ? ? ? Heq. inversion Heq; subst. reflexivity.
    + simpl. lia.
Qed.

(** C8. When the library succeeds and standard output takes the
    document, the process ends normally (status 0) and standard output
    holds exactly the returned object, whose keys are language, duration,
    text and segments, serialised by
    [json.dumps(..., ensure_ascii=False, indent=2)] and followed by the line
    break of [print].  That text is the document laid out with two spaces
    per nesting level; the string encoder copies every non-ASCII byte as it
    is; and when the duration and the segment times are finite floats whose
    decimal notation is a JSON number, standard output is one JSON text of
    RFC 8259 that denotes the returned object. *)
Theorem C8_success_prints_one_json_document
    (prog audio_file : string) (rest : list string)
    (segments : list Segment.t) (info : Info.t) :
  library_returns lib audio_file (hd "ur" rest) segments info ->
  accepts stdout_encoding (document_layout float_repr info segments) = true ->
  exists result : pyobj,
    fst (transcribe_audio lib audio_file (Some (hd "ur" rest)) initial_world)
      = Return result /\
    keys result = ["language"; "duration"; "text"; "segments"] /\
    fst (run_in stdout_encoding float_repr lib (prog :: audio_file :: rest))
      = Return tt /\
    exit_status
      (fst (run_in stdout_encoding float_repr lib (prog :: audio_file :: rest)))
      = 0%Z /\
    stdout (snd (run_in stdout_encoding float_repr lib
                   (prog :: audio_file :: rest)))
      = (json_dumps float_repr result 2 ++ newline)%string /\
    json_dumps float_repr result 2 = document_layout float_repr info segments /\
    (forall c : ascii,
        128 <= nat_of_ascii c -> escape_char c = String c EmptyString) /\
    (Forall (float_ok float_repr)
            (Info.duration info
             :: flat_map (fun s => [Segment.start s; Segment.end_ s]) segments) ->
     json_text float_repr
       (stdout (snd (run_in stdout_encoding float_repr lib
                       (prog :: audio_file :: rest))))
       result).
Proof.
  intros H Hyes. exists (result_dict info segments).
  rewrite (transcribe_audio_returns lib _ _ _ _ initial_world H).
  rewrite run_in_cases. cbv zeta.
  destruct H as [m g Hm Ht Hg].
  rewrite Hm, Ht, Hg, json_dumps_result_dict, Hyes.
  cbn [fst snd stdout exit_status].
  split; [reflexivity | split; [reflexivity | split; [reflexivity |]]].
  split; [reflexivity | split; [reflexivity | split; [reflexivity |]]].
  split; [apply escape_char_non_ascii |].
  intros Hfloats. rewrite <- json_dumps_result_dict.
  apply json_text_json_dumps. now apply floats_ok_result_dict.
Qed.

End RunInFacts.

(** ** The two statements on concrete command lines *)

(** An invocation without the audio argument builds no model and requests
    no transcription. *)
Lemma C6_counterexample :
  fst (run Demo.float_repr Demo.lib ["transcribe-local.py"]) = SystemExit 1 /\
  calls (snd (run Demo.float_repr Demo.lib ["transcribe-local.py"])) = [].
Proof. split; reflexivity. Qed.

Lemma C6_witness :
  calls (snd (run_in Demo3.ascii_only Demo.float_repr Demo.lib
                ["transcribe-local.py"; "naat.mp3"; "en"])) =
  [Call_WhisperModel "large-v3" "cpu" "int8";
   Call_transcribe "naat.mp3" "en" 5 false].
Proof.
  destruct (C6_fixed_model_and_decoding_configuration Demo3.ascii_only
              Demo.float_repr Demo.lib
              ["transcribe-local.py"; "naat.mp3"; "en"])
    as (_ & _ & Hlog & _).
  apply (Hlog "transcribe-local.py" "naat.mp3" ["en"]). reflexivity.
Defined.

(** The transcription succeeds, yet on a standard output that takes ASCII
    only the document with its literal non-ASCII text cannot be printed:
    the process exits with status 1 and standard output stays empty. *)
Lemma C8_counterexample :
  library_returns Demo3.urdu_lib "naat.mp3" "ur" [Demo3.alef] (Demo.info "ur") /\
  run_in Demo3.ascii_only Demo.float_repr Demo3.urdu_lib
    ["transcribe-local.py"; "naat.mp3"] =
  (SystemExit 1,
   mkWorld EmptyString
     ((loading_line ++ transcribing_line "naat.mp3")
      ++ error_line
           (mkException
              "'ascii' codec can't encode character: ordinal not in range(128)"))
     [Call_WhisperModel "large-v3" "cpu" "int8";
      Call_transcribe "naat.mp3" "ur" 5 false]).
Proof.
  split.
  - apply (returns_intro Demo3.urdu_lib _ _ _ _ tt (generator_of [Demo3.alef]));
      reflexivity.
  - vm_compute. reflexivity.
Qed.

Lemma C8_witness :
  exists result : pyobj,
    fst (transcribe_audio Demo.lib "naat.mp3" (Some "ur") initial_world)
      = Return result /\
    keys result = ["language"; "duration"; "text"; "segments"] /\
    exit_status (fst (run_in Demo3.ascii_only Demo.float_repr Demo.lib
                        ["transcribe-local.py"; "naat.mp3"])) = 0%Z /\
    stdout (snd (run_in Demo3.ascii_only Demo.float_repr Demo.lib
                   ["transcribe-local.py"; "naat.mp3"]))
      = (json_dumps Demo.float_repr result 2 ++ newline)%string /\
    json_text Demo.float_repr
      (stdout (snd (run_in Demo3.ascii_only Demo.float_repr Demo.lib
                      ["transcribe-local.py"; "naat.mp3"])))
      result.
Proof.
  destruct (C8_success_prints_one_json_document Demo3.ascii_only
              Demo.float_repr Demo.lib
              "transcribe-local.py" "naat.mp3" []
              [Demo.seg1; Demo.seg2] (Demo.info "ur"))
    as (result & Hret & Hkeys & _ & Hexit & Hout & _ & _ & Hjson).
  - apply (returns_intro Demo.lib _ _ _ _ tt
             (generator_of [Demo.seg1; Demo.seg2])); reflexivity.
  - vm_compute. reflexivity.
  - exists result.
    split; [exact Hret | split; [exact Hkeys | split; [exact Hexit |]]].
    split; [exact Hout |].
    apply Hjson. repeat constructor.
Defined.
